(** * password_timing_demo.py: a shallow embedding and its properties

    The script times four hashing callables (SHA-256, bcrypt, scrypt,
    Argon2id).  Python objects are embedded as follows:

    - [bytes] is [list byte], [str] is [string], [int] is [Z];
    - [float] is IEEE 754 binary64, given by the Standard Library's
      [spec_float] with precision 53 and maximal exponent 1024;
    - statements run in a monad [M] that threads a [World], may raise a
      Python exception, and records the observable events of the run;
    - a closure returned by a [make_*_hasher] factory is a value of the
      inductive type [hasher] holding the captured variables.

    The third-party primitives (hashlib, bcrypt, argon2, os.urandom,
    time.perf_counter) are not part of the script: they are the fields of
    the class [Platform].  The hashing primitives are functions of their
    arguments; the class also states what is assumed of the clock (its
    readings are well-formed numbers below [2^64] seconds) and of bcrypt's
    salt encoding (it is injective).  [Demo.platform] is an instance with
    bcrypt's actual radix-64 encoding. *)

From Stdlib Require Import ZArith List String Ascii Bool Lia.
From Stdlib.Strings Require Import Byte.
From Stdlib Require Import SpecFloat DecimalString Decimal.
Import ListNotations.
Local Open Scope Z_scope.
Set Warnings "-register-all".

(** ** Python values *)

Definition bytes := list byte.

(** *** Floats: IEEE 754 binary64 *)

Module PyFloat.

Definition prec : Z := 53.
Definition emax : Z := 1024.

Definition float := spec_float.

(** Correctly rounded conversion of an integer (round to nearest, ties to
    even); the result is an infinity when the integer is out of range. *)
Definition of_Z (n : Z) : float := binary_normalize prec emax n 0 false.

Definition sub : float -> float -> float := SFsub prec emax.
Definition div : float -> float -> float := SFdiv prec emax.
Definition mul : float -> float -> float := SFmul prec emax.

(** [x <= y] and [x == y] as Python evaluates them. *)
Definition leb : float -> float -> bool := SFleb.
Definition eqb : float -> float -> bool := SFeqb.

Definition zero : float := S754_zero false.

(** The literal [1000.0]. *)
Definition thousand : float := Eval vm_compute in of_Z 1000.

Definition is_finite (x : float) : bool :=
  match x with
  | S754_zero _ | S754_finite _ _ _ => true
  | S754_infinity _ | S754_nan => false
  end.

(** A well-formed binary64 datum: the mantissa is canonical for the
    exponent and the exponent is in range. *)
Definition well_formed (x : float) : bool := valid_binary prec emax x.

(** [0 <= x] *)
Definition nonneg (x : float) : bool := leb zero x.

(** [below k x]: [x] is a zero or a finite number with [|x| < 2^k]. *)
Definition below (k : Z) (x : float) : bool :=
  match x with
  | S754_zero _ => true
  | S754_finite _ m e => Zpos (digits2_pos m) + e <=? k
  | S754_infinity _ | S754_nan => false
  end.

End PyFloat.

Definition float : Type := PyFloat.float.

(** [x] is a zero, a finite number or an infinity of sign [s] (and no NaN). *)
Definition signed (s : bool) (x : float) : Prop :=
  match x with
  | S754_zero s' | S754_infinity s' | S754_finite s' _ _ => s' = s
  | S754_nan => False
  end.

(** [x] is a finite number other than zero, or an infinity, of sign [s]. *)
Definition signed_nonzero (s : bool) (x : float) : Prop :=
  match x with
  | S754_infinity s' | S754_finite s' _ _ => s' = s
  | S754_zero _ | S754_nan => False
  end.

(** *** Text *)

Definition str_of_Z (n : Z) : string := NilZero.string_of_int (Z.to_int n).

Definition space : ascii := " "%char.

Fixpoint spaces (n : nat) : string :=
  match n with
  | O => EmptyString
  | S k => String space (spaces k)
  end.

(** [format(s, "10s")]: left-aligned, padded with spaces on the right. *)
Definition ljust (width : nat) (s : string) : string :=
  (s ++ spaces (width - String.length s))%string.

(** Numbers are right-aligned: padded with spaces on the left. *)
Definition rjust (width : nat) (s : string) : string :=
  (spaces (width - String.length s) ++ s)%string.

Definition digit_char (d : Z) : ascii := ascii_of_nat (48 + Z.to_nat d).

Definition is_digit (c : ascii) : bool :=
  let n := nat_of_ascii c in (48 <=? n)%nat && (n <=? 57)%nat.

Fixpoint all_digits (s : string) : bool :=
  match s with
  | EmptyString => true
  | String c r => is_digit c && all_digits r
  end.

(** Nearest integer to [a / d], ties to the even neighbour
    ([0 <= a], [0 < d]). *)
Definition round_half_even_div (a d : Z) : Z :=
  let q := a / d in
  let r := a mod d in
  match 2 * r ?= d with
  | Lt => q
  | Gt => q + 1
  | Eq => if Z.even q then q else q + 1
  end.

(** [|x| * 100] rounded to an integer, for [|x| = m * 2^e]. *)
Definition hundredths (m : positive) (e : Z) : Z :=
  match e with
  | Zneg k => round_half_even_div (Zpos m * 100) (2 ^ Zpos k)
  | _ => Zpos m * 2 ^ e * 100
  end.

Definition two_digits (n : Z) : string :=
  String (digit_char (n / 10)) (String (digit_char (n mod 10)) EmptyString).

Definition sign_text (s : bool) : string :=
  if s then "-"%string else EmptyString.

(** [format(x, ".2f")]: the exact binary value, correctly rounded to two
    decimal places. *)
Definition format_2f (x : float) : string :=
  match x with
  | S754_nan => "nan"%string
  | S754_infinity s => (sign_text s ++ "inf")%string
  | S754_zero s => (sign_text s ++ "0.00")%string
  | S754_finite s m e =>
      let h := hundredths m e in
      (sign_text s ++ str_of_Z (h / 100) ++ "." ++ two_digits (h mod 100))%string
  end.

(** The text of the f-string
    [f"{name:10s}  {avg_ms:8.2f} ms per hash (over {repeat} runs)"]. *)
Definition result_line (name : string) (avg_ms : float) (repeat : Z) : string :=
  (ljust 10 name ++ "  " ++ rjust 8 (format_2f avg_ms)
   ++ " ms per hash (over " ++ str_of_Z repeat ++ " runs)")%string.

(** [repr] of a bytes object: printable ASCII is kept, the backslash and
    the quote are escaped, [\t], [\n], [\r] have their short forms and
    every other byte is written [\xNN].  Single quotes delimit the literal
    unless the data holds a single quote and no double quote. *)
Definition hex_char (d : nat) : ascii :=
  if (d <? 10)%nat then ascii_of_nat (48 + d) else ascii_of_nat (87 + d).

Definition backslash : ascii := ascii_of_nat 92.
Definition single_quote : ascii := ascii_of_nat 39.
Definition double_quote : ascii := ascii_of_nat 34.

Definition repr_byte (quote : ascii) (b : byte) : string :=
  let c := ascii_of_byte b in
  let n := nat_of_ascii c in
  if (Ascii.eqb c quote || Ascii.eqb c backslash)%bool
  then String backslash (String c EmptyString)
  else if (n =? 9)%nat then String backslash "t"
  else if (n =? 10)%nat then String backslash "n"
  else if (n =? 13)%nat then String backslash "r"
  else if ((n <? 32) || (127 <=? n))%nat%bool
  then String backslash
         (String "x" (String (hex_char (n / 16)) (String (hex_char (n mod 16)) EmptyString)))
  else String c EmptyString.

Definition has_byte (c : ascii) (bs : bytes) : bool :=
  existsb (fun b => Ascii.eqb (ascii_of_byte b) c) bs.

Definition repr_bytes (bs : bytes) : string :=
  let quote :=
    if (has_byte single_quote bs && negb (has_byte double_quote bs))%bool
    then double_quote else single_quote in
  String "b" (String quote
    (String.concat EmptyString (map (repr_byte quote) bs) ++ String quote EmptyString)).

(** ** Exceptions and results *)

(** The exceptions a run can end with.  [InvalidArgument],
    [OperationFailed] and [ConfigurationError] are the error kinds the
    specification names; no statement of the script raises them. *)
Inductive exn : Type :=
| ZeroDivisionError (msg : string)
| OverflowError (msg : string)
| ValueError (msg : string)
| InvalidArgument
| OperationFailed (iteration : Z)
| ConfigurationError (tunable : string)
| OtherError (class_name msg : string).

Inductive Res (A : Type) : Type :=
| Ok (a : A)
| Raise (e : exn).

Arguments Ok {A} a.
Arguments Raise {A} e.

(** The exit status of the interpreter: 0 when the script runs to its end,
    1 when an exception reaches the top level. *)
Definition exit_status {A : Type} (r : Res A) : Z :=
  match r with
  | Ok _ => 0
  | Raise _ => 1
  end.

(** [float(n)] for an [int]: raises [OverflowError] when [n] is beyond the
    range of binary64. *)
Definition float_of_int (n : Z) : Res float :=
  let d := PyFloat.of_Z n in
  if PyFloat.is_finite d then Ok d
  else Raise (OverflowError "int too large to convert to float").

(** [x / n] for a float [x] and an int [n]: the int is converted first, a
    zero divisor raises [ZeroDivisionError]. *)
Definition truediv (x : float) (n : Z) : Res float :=
  match float_of_int n with
  | Raise e => Raise e
  | Ok d =>
      if PyFloat.eqb d PyFloat.zero
      then Raise (ZeroDivisionError "float division by zero")
      else Ok (PyFloat.div x d)
  end.

(** ** Observable events *)

Inductive algorithm : Type := SHA256 | Bcrypt | Scrypt | Argon2id.

(** What a run does, in order.  [EvInvoke] brackets the events of one call
    of the timed callable. *)
Inductive event : Type :=
| EvClock (t : float)
| EvUrandom (drawn : bytes)
| EvHash (alg : algorithm) (salt : bytes) (output : bytes)
| EvPrint (text : string)
| EvInvoke (inner : list event).

Definition trace := list event.

Definition is_invoke (e : event) : bool :=
  match e with EvInvoke _ => true | _ => false end.

Definition is_clock (e : event) : bool :=
  match e with EvClock _ => true | _ => false end.

(** Number of calls of the timed callable in a trace. *)
Definition invocations (l : trace) : nat := List.length (filter is_invoke l).

(** How often random bytes are drawn in a trace, nested events included. *)
Fixpoint entropy_draws (e : event) : nat :=
  match e with
  | EvUrandom _ => 1
  | EvInvoke inner => list_sum (map entropy_draws inner)
  | _ => 0
  end.

Definition trace_entropy_draws (l : trace) : nat := list_sum (map entropy_draws l).

(** The lines written to standard output by the top level of a trace. *)
Fixpoint printed (l : trace) : list string :=
  match l with
  | [] => []
  | EvPrint s :: r => s :: printed r
  | _ :: r => printed r
  end.

(** ** The platform: time source, entropy source and hashing libraries *)

Inductive argon2_type : Type := Type_D | Type_I | Type_ID.

Class Platform : Type := {
  (** the value returned by the k-th call of [time.perf_counter()] *)
  perf_counter_reading : nat -> float;
  (** the k-th byte delivered by the operating system's entropy source *)
  urandom_byte : nat -> byte;
  (** [hashlib.sha256(data).hexdigest()] *)
  sha256_hexdigest : bytes -> string;
  (** bcrypt's radix-64 encoding of the raw salt *)
  bcrypt_encode_base64 : bytes -> bytes;
  (** [bcrypt.hashpw(password, salt)] *)
  bcrypt_hashpw : bytes -> bytes -> Res bytes;
  (** [hashlib.scrypt(password, salt=, n=, r=, p=)] *)
  hashlib_scrypt : bytes -> bytes -> Z -> Z -> Z -> Res bytes;
  (** [argon2.low_level.hash_secret(secret, salt, time_cost, memory_cost,
      parallelism, hash_len, type)] *)
  hash_secret : bytes -> bytes -> Z -> Z -> Z -> Z -> argon2_type -> Res bytes;
  (** every reading of the performance counter is a well-formed binary64
      number below [2^64] seconds (the counter is a 64-bit count of
      nanoseconds) *)
  perf_counter_well_formed :
    forall k, PyFloat.well_formed (perf_counter_reading k) = true;
  perf_counter_below :
    forall k, PyFloat.below 64 (perf_counter_reading k) = true;
  (** the radix-64 encoding loses nothing of a sixteen-byte salt *)
  bcrypt_encode_base64_inj :
    forall a b : bytes,
      List.length a = 16%nat -> List.length b = 16%nat ->
      bcrypt_encode_base64 a = bcrypt_encode_base64 b -> a = b
}.

(** ** The module constants *)

Record Configuration : Type := {
  PASSWORD : bytes;
  REPEAT : Z;
  BCRYPT_COST : Z;
  SCRYPT_N : Z;
  SCRYPT_R : Z;
  SCRYPT_P : Z;
  ARGON2_TIME_COST : Z;
  ARGON2_MEMORY_COST : Z;
  ARGON2_PARALLELISM : Z
}.

(** The values the script assigns. *)
Definition module_constants : Configuration := {|
  PASSWORD := list_byte_of_string "correct horse battery staple";
  REPEAT := 100;
  BCRYPT_COST := 12;
  SCRYPT_N := 2 ^ 14;
  SCRYPT_R := 8;
  SCRYPT_P := 1;
  ARGON2_TIME_COST := 2;
  ARGON2_MEMORY_COST := 64000;
  ARGON2_PARALLELISM := 1
|}.

(** ** Closures *)

(** The callable returned by a factory, with the variables it captured.
    The cells are never assigned after the factory returns. *)
Inductive hasher : Type :=
| Sha256Hasher (password : bytes)
| BcryptHasher (password salt : bytes)
| ScryptHasher (password salt : bytes) (n r p : Z)
| Argon2idHasher (password salt : bytes) (time_cost memory_cost parallelism : Z).

(** The salt a closure captured ([None] for the unsalted digest). *)
Definition captured_salt (h : hasher) : option bytes :=
  match h with
  | Sha256Hasher _ => None
  | BcryptHasher _ salt => Some salt
  | ScryptHasher _ salt _ _ _ => Some salt
  | Argon2idHasher _ salt _ _ _ => Some salt
  end.

Definition newline : string := String (ascii_of_nat 10) EmptyString.

(** ** The world and the monad of statements *)

Record World (U : Type) : Type := mkWorld {
  (** readings of the performance counter taken so far *)
  clock_reads : nat;
  (** random bytes consumed so far *)
  entropy_used : nat;
  (** state owned by caller-supplied callables *)
  user : U
}.

Arguments mkWorld {U} _ _ _.
Arguments clock_reads {U} _.
Arguments entropy_used {U} _.
Arguments user {U} _.

(** A statement maps the world to an outcome, the world it leaves and the
    events it produced; an exception keeps the world reached so far. *)
Definition M (U A : Type) : Type := World U -> Res A * World U * trace.

Definition ret {U A : Type} (a : A) : M U A := fun w => (Ok a, w, []).

Definition bind {U A B : Type} (m : M U A) (k : A -> M U B) : M U B :=
  fun w =>
    match m w with
    | (Ok a, w1, l1) =>
        let '(r, w2, l2) := k a w1 in (r, w2, l1 ++ l2)
    | (Raise e, w1, l1) => (Raise e, w1, l1)
    end.

Definition raise {U A : Type} (e : exn) : M U A := fun w => (Raise e, w, []).

Definition lift {U A : Type} (r : Res A) : M U A := fun w => (r, w, []).

Definition emit {U : Type} (e : event) : M U unit := fun w => (Ok tt, w, [e]).

Declare Scope py_scope.
Delimit Scope py_scope with py.
Notation "x <- c1 ;; c2" := (bind c1 (fun x => c2))
  (at level 61, c1 at next level, right associativity) : py_scope.
Notation "c1 ;; c2" := (bind c1 (fun _ => c2))
  (at level 61, right associativity) : py_scope.
Local Open Scope py_scope.

(** The world after one reading of the performance counter. *)
Definition tick {U : Type} (w : World U) : World U :=
  mkWorld (S (clock_reads w)) (entropy_used w) (user w).

(** The world after [n] random bytes were drawn. *)
Definition consume {U : Type} (n : nat) (w : World U) : World U :=
  mkWorld (clock_reads w) (entropy_used w + n)%nat (user w).

Section Program.

Context {P : Platform} {U : Type}.

(** *** Built-ins *)

(** [time.perf_counter()] *)
Definition perf_counter : M U float :=
  fun w =>
    let t := perf_counter_reading (clock_reads w) in
    (Ok t, tick w, [EvClock t]).

(** The next [n] bytes of the entropy source, from position [pos]. *)
Definition entropy_bytes (pos n : nat) : bytes := map urandom_byte (seq pos n).

(** [os.urandom(n)] *)
Definition urandom (n : nat) : M U bytes :=
  fun w =>
    let bs := entropy_bytes (entropy_used w) n in
    (Ok bs, consume n w, [EvUrandom bs]).

(** [print(text)] *)
Definition print (text : string) : M U unit := emit (EvPrint text).

(** A call [hash_func()] of a callable passed in by the caller. *)
Definition call (hash_func : M U unit) : M U unit :=
  fun w => let '(r, w1, l) := hash_func w in (r, w1, [EvInvoke l]).

(** [for _ in range(n): body] *)
Fixpoint repeat_stmt (n : nat) (body : M U unit) : M U unit :=
  match n with
  | O => ret tt
  | S k => body ;; repeat_stmt k body
  end.

Definition for_range (n : Z) (body : M U unit) : M U unit :=
  repeat_stmt (Z.to_nat n) body.

(** [bcrypt.gensalt(rounds=rounds)], with the default prefix [b"2b"]:
    the rounds are checked, sixteen random bytes are drawn and encoded
    after the cost. *)
Definition gensalt (rounds : Z) : M U bytes :=
  if ((rounds <? 4) || (31 <? rounds))%bool
  then raise (ValueError "Invalid rounds")
  else
    salt <- urandom 16 ;;
    ret (list_byte_of_string "$2b$" ++ list_byte_of_string (two_digits rounds)
         ++ list_byte_of_string "$" ++ bcrypt_encode_base64 salt).

(** *** Helper: timing function *)

Definition time_hasher (name : string) (hash_func : M U unit) (repeat : Z) : M U unit :=
  start <- perf_counter ;;
  for_range repeat (call hash_func) ;;
  end_ <- perf_counter ;;
  let total_seconds := PyFloat.sub end_ start in
  quotient <- lift (truediv total_seconds repeat) ;;
  let avg_ms := PyFloat.mul quotient PyFloat.thousand in
  print (result_line name avg_ms repeat).

(** *** Hash function wrappers *)

Definition make_sha256_hasher (password : bytes) : M U hasher :=
  ret (Sha256Hasher password).

Definition make_bcrypt_hasher (password : bytes) (cost : Z) : M U hasher :=
  salt <- gensalt cost ;;
  ret (BcryptHasher password salt).

Definition make_scrypt_hasher (password : bytes) (n r p : Z) : M U hasher :=
  salt <- urandom 16 ;;
  ret (ScryptHasher password salt n r p).

Definition make_argon2id_hasher (password : bytes)
    (time_cost memory_cost parallelism : Z) : M U hasher :=
  salt <- urandom 16 ;;
  ret (Argon2idHasher password salt time_cost memory_cost parallelism).

(** The body [do_hash] of each closure: one call of the primitive on the
    captured variables; the value is dropped and [None] is returned. *)
Definition do_hash (h : hasher) : M U unit :=
  match h with
  | Sha256Hasher password =>
      emit (EvHash SHA256 [] (list_byte_of_string (sha256_hexdigest password)))
  | BcryptHasher password salt =>
      out <- lift (bcrypt_hashpw password salt) ;;
      emit (EvHash Bcrypt salt out)
  | ScryptHasher password salt n r p =>
      out <- lift (hashlib_scrypt password salt n r p) ;;
      emit (EvHash Scrypt salt out)
  | Argon2idHasher password salt time_cost memory_cost parallelism =>
      out <- lift (hash_secret password salt time_cost memory_cost parallelism 32 Type_ID) ;;
      emit (EvHash Argon2id salt out)
  end.

(** *** Main *)

Definition main (c : Configuration) : M U unit :=
  print ("Password hashing timing demo" ++ newline) ;;
  print ("Password: " ++ repr_bytes (PASSWORD c)) ;;
  print ("Repetitions per algorithm: " ++ str_of_Z (REPEAT c)) ;;
  print EmptyString ;;
  print "Parameters used:" ;;
  print ("- bcrypt:  cost=" ++ str_of_Z (BCRYPT_COST c)) ;;
  print ("- scrypt:  N=" ++ str_of_Z (SCRYPT_N c) ++ ", r=" ++ str_of_Z (SCRYPT_R c)
         ++ ", p=" ++ str_of_Z (SCRYPT_P c)) ;;
  print ("- Argon2id: time_cost=" ++ str_of_Z (ARGON2_TIME_COST c)
         ++ ", memory_cost=" ++ str_of_Z (ARGON2_MEMORY_COST c) ++ " KiB, "
         ++ "parallelism=" ++ str_of_Z (ARGON2_PARALLELISM c)) ;;
  print EmptyString ;;
  sha256_hasher <- make_sha256_hasher (PASSWORD c) ;;
  bcrypt_hasher <- make_bcrypt_hasher (PASSWORD c) (BCRYPT_COST c) ;;
  scrypt_hasher <- make_scrypt_hasher (PASSWORD c) (SCRYPT_N c) (SCRYPT_R c) (SCRYPT_P c) ;;
  argon2id_hasher <- make_argon2id_hasher (PASSWORD c) (ARGON2_TIME_COST c)
                       (ARGON2_MEMORY_COST c) (ARGON2_PARALLELISM c) ;;
  print ("Average time per hash:" ++ newline) ;;
  time_hasher "SHA-256" (do_hash sha256_hasher) (REPEAT c) ;;
  time_hasher "bcrypt" (do_hash bcrypt_hasher) (REPEAT c) ;;
  time_hasher "scrypt" (do_hash scrypt_hasher) (REPEAT c) ;;
  time_hasher "Argon2id" (do_hash argon2id_hasher) (REPEAT c).

(** ** Vocabulary of the properties *)

(** The value [time_hasher] assigns to [avg_ms] from its two readings:
    [total_seconds = end - start], then [(total_seconds / repeat) * 1000.0]. *)
Definition average_ms (start end_ : float) (repeat : Z) : Res float :=
  match truediv (PyFloat.sub end_ start) repeat with
  | Ok quotient => Ok (PyFloat.mul quotient PyFloat.thousand)
  | Raise e => Raise e
  end.

(** The three factories that generate a salt, with their arguments. *)
Inductive salted_factory : Type :=
| BcryptFactory (password : bytes) (cost : Z)
| ScryptFactory (password : bytes) (n r p : Z)
| Argon2idFactory (password : bytes) (time_cost memory_cost parallelism : Z).

Definition construct (fac : salted_factory) : M U hasher :=
  match fac with
  | BcryptFactory password cost => make_bcrypt_hasher password cost
  | ScryptFactory password n r p => make_scrypt_hasher password n r p
  | Argon2idFactory password time_cost memory_cost parallelism =>
      make_argon2id_hasher password time_cost memory_cost parallelism
  end.

(** The salt a factory builds out of the sixteen random bytes it draws. *)
Definition salt_of_randomness (fac : salted_factory) (random : bytes) : bytes :=
  match fac with
  | BcryptFactory _ cost =>
      list_byte_of_string "$2b$" ++ list_byte_of_string (two_digits cost)
      ++ list_byte_of_string "$" ++ bcrypt_encode_base64 random
  | _ => random
  end.

(** The algorithm a closure runs, the salt it passes ([[]] for the unsalted
    digest) and the value its primitive computes from the captured
    variables. *)
Definition algorithm_of (h : hasher) : algorithm :=
  match h with
  | Sha256Hasher _ => SHA256
  | BcryptHasher _ _ => Bcrypt
  | ScryptHasher _ _ _ _ _ => Scrypt
  | Argon2idHasher _ _ _ _ _ => Argon2id
  end.

Definition hashed_salt (h : hasher) : bytes :=
  match captured_salt h with
  | Some salt => salt
  | None => []
  end.

Definition primitive_output (h : hasher) : Res bytes :=
  match h with
  | Sha256Hasher password => Ok (list_byte_of_string (sha256_hexdigest password))
  | BcryptHasher password salt => bcrypt_hashpw password salt
  | ScryptHasher password salt n r p => hashlib_scrypt password salt n r p
  | Argon2idHasher password salt time_cost memory_cost parallelism =>
      hash_secret password salt time_cost memory_cost parallelism 32 Type_ID
  end.

(** An event that is one call of [h]: at most one hash, computed with the
    salt [h] captured, and nothing else. *)
Definition call_of (h : hasher) (e : event) : Prop :=
  e = EvInvoke []
  \/ exists out, e = EvInvoke [EvHash (algorithm_of h) (hashed_salt h) out].

(** The lines [main] prints before it builds the callables. *)
Definition banner (c : Configuration) : list string :=
  [ ("Password hashing timing demo" ++ newline)%string;
    ("Password: " ++ repr_bytes (PASSWORD c))%string;
    ("Repetitions per algorithm: " ++ str_of_Z (REPEAT c))%string;
    EmptyString;
    "Parameters used:"%string;
    ("- bcrypt:  cost=" ++ str_of_Z (BCRYPT_COST c))%string;
    ("- scrypt:  N=" ++ str_of_Z (SCRYPT_N c) ++ ", r=" ++ str_of_Z (SCRYPT_R c)
     ++ ", p=" ++ str_of_Z (SCRYPT_P c))%string;
    ("- Argon2id: time_cost=" ++ str_of_Z (ARGON2_TIME_COST c)
     ++ ", memory_cost=" ++ str_of_Z (ARGON2_MEMORY_COST c) ++ " KiB, "
     ++ "parallelism=" ++ str_of_Z (ARGON2_PARALLELISM c))%string;
    EmptyString ].

(** The [k]-th call of [hash_func] is the first to fail: the calls before
    it return, it raises [e], leaving the world [w'] and the trace [l] of
    all [k] calls. *)
Definition fails_at (hash_func : M U unit) (k : nat) (w : World U)
    (e : exn) (w' : World U) (l : trace) : Prop :=
  exists wk l0 lk,
    repeat_stmt (Nat.pred k) (call hash_func) w = (Ok tt, wk, l0)
    /\ hash_func wk = (Raise e, w', lk)
    /\ l = l0 ++ [EvInvoke lk]
    /\ (1 <= k)%nat.

(** *** The statements of the specification that the script does not meet *)

(** Timer, as specified for a positive count: when no call fails, a result
    line with the mean is reported. *)
Definition reports_mean (name : string) (hash_func : M U unit) (repeat : Z)
    (w : World U) : Prop :=
  forall w2 l,
    for_range repeat (call hash_func) (tick w) = (Ok tt, w2, l) ->
    exists avg_ms rest,
      time_hasher name hash_func repeat w
      = (Ok tt, tick w2, rest ++ [EvPrint (result_line name avg_ms repeat)]).

(** Timer, as specified for a count that is not positive: [InvalidArgument]
    and no call. *)
Definition rejects_repetitions (name : string) (hash_func : M U unit) (repeat : Z)
    (w : World U) : Prop :=
  exists w' l,
    time_hasher name hash_func repeat w = (Raise InvalidArgument, w', l)
    /\ invocations l = 0%nat.

(** Timer, as specified for a failing call: [OperationFailed] tagged with
    the iteration, after exactly that many calls. *)
Definition tags_failure (name : string) (hash_func : M U unit) (repeat : Z)
    (k : nat) (w : World U) : Prop :=
  exists w' l,
    time_hasher name hash_func repeat w = (Raise (OperationFailed (Z.of_nat k)), w', l)
    /\ invocations l = k.

(** Driver, as specified for a failing factory: the other algorithms are
    still timed and reported and the exit status is 0. *)
Definition skips_failed_factory (c : Configuration) (w : World U) : Prop :=
  (exists e w' l,
     make_bcrypt_hasher (PASSWORD c) (BCRYPT_COST c) w = (Raise e, w', l)) ->
  let '(r, _, l) := main c w in
  exit_status r = 0
  /\ forall name, In name ["SHA-256"; "scrypt"; "Argon2id"]%string ->
       exists avg_ms, In (result_line name avg_ms (REPEAT c)) (printed l).

End Program.

(** * Properties *)

(** ** Traces *)

Lemma invocations_app (l1 l2 : trace) :
  invocations (l1 ++ l2) = (invocations l1 + invocations l2)%nat.
Proof.
  unfold invocations. rewrite filter_app, length_app. reflexivity.
Qed.

Lemma invocations_all (l : trace) :
  Forall (fun e => is_invoke e = true) l -> invocations l = List.length l.
Proof.
  unfold invocations. induction 1 as [|e l He _ IH]; simpl.
  - reflexivity.
  - rewrite He. simpl. now rewrite IH.
Qed.

Lemma printed_app (l1 l2 : trace) : printed (l1 ++ l2) = printed l1 ++ printed l2.
Proof.
  induction l1 as [|e l1 IH]; simpl.
  - reflexivity.
  - destruct e; simpl; now rewrite IH.
Qed.

Lemma printed_invokes (l : trace) :
  Forall (fun e => is_invoke e = true) l -> printed l = [].
Proof.
  induction 1 as [|e l He _ IH]; simpl.
  - reflexivity.
  - destruct e; simpl in He; try discriminate. exact IH.
Qed.

Lemma trace_entropy_draws_app (l1 l2 : trace) :
  trace_entropy_draws (l1 ++ l2)
  = (trace_entropy_draws l1 + trace_entropy_draws l2)%nat.
Proof.
  unfold trace_entropy_draws. now rewrite map_app, list_sum_app.
Qed.

(** ** Binary64 arithmetic *)

Lemma digits2_pos_bounds (m : positive) :
  2 ^ (Zpos (digits2_pos m) - 1) <= Zpos m < 2 ^ Zpos (digits2_pos m).
Proof.
  induction m as [m IH|m IH|]; cbn [digits2_pos].
  - rewrite Pos2Z.inj_succ.
    replace (Z.succ (Zpos (digits2_pos m)) - 1) with (Z.succ (Zpos (digits2_pos m) - 1)) by lia.
    rewrite !Z.pow_succ_r by lia. lia.
  - rewrite Pos2Z.inj_succ.
    replace (Z.succ (Zpos (digits2_pos m)) - 1) with (Z.succ (Zpos (digits2_pos m) - 1)) by lia.
    rewrite !Z.pow_succ_r by lia. lia.
  - cbn. lia.
Qed.

Lemma shr_1_m (mrs : shr_record) :
  0 <= shr_m mrs -> shr_m (shr_1 mrs) = shr_m mrs / 2.
Proof.
  destruct mrs as [m r s]. cbn [shr_m]. intros Hm.
  destruct m as [|p|p]; [reflexivity | | lia].
  destruct p as [p|p|]; cbn [shr_1 shr_m].
  - rewrite Pos2Z.inj_xI. apply Z.div_unique with (r := 1); lia.
  - rewrite Pos2Z.inj_xO. apply Z.div_unique with (r := 0); lia.
  - reflexivity.
Qed.

Lemma iter_shr_1_m (p : positive) :
  forall mrs, 0 <= shr_m mrs ->
    shr_m (iter_pos shr_1 p mrs) = shr_m mrs / 2 ^ Zpos p.
Proof.
  induction p as [p IH|p IH|]; intros mrs Hm; cbn [iter_pos].
  - assert (H1 : 0 <= shr_m (shr_1 mrs)) by (rewrite shr_1_m by lia; apply Z.div_pos; lia).
    assert (H2 : 0 <= shr_m (iter_pos shr_1 p (shr_1 mrs)))
      by (rewrite IH by lia; apply Z.div_pos; [lia | apply Z.pow_pos_nonneg; lia]).
    rewrite IH, IH, shr_1_m by lia.
    rewrite !Z.div_div by (try apply Z.pow_pos_nonneg; lia).
    f_equal. replace (Z.pos p~1) with (Z.pos p + Z.pos p + 1) by lia.
    rewrite !Z.pow_add_r, Z.pow_1_r by lia. ring.
  - assert (H2 : 0 <= shr_m (iter_pos shr_1 p mrs))
      by (rewrite IH by lia; apply Z.div_pos; [lia | apply Z.pow_pos_nonneg; lia]).
    rewrite IH, IH by lia.
    rewrite !Z.div_div by (try apply Z.pow_pos_nonneg; lia).
    f_equal. replace (Z.pos p~0) with (Z.pos p + Z.pos p) by lia.
    rewrite !Z.pow_add_r by lia. ring.
  - rewrite shr_1_m by lia. reflexivity.
Qed.

Lemma shr_record_of_loc_m (m : Z) (l : location) :
  shr_m (shr_record_of_loc m l) = m.
Proof. destruct l as [|[| |]]; reflexivity. Qed.

Lemma shr_fexp_nonneg (m e : Z) (l : location) (mrs : shr_record) (e' : Z) :
  0 <= m ->
  shr_fexp PyFloat.prec PyFloat.emax m e l = (mrs, e') ->
  0 <= shr_m mrs /\ e <= e'.
Proof.
  unfold shr_fexp, shr. intros Hm H.
  destruct (fexp PyFloat.prec PyFloat.emax (Zdigits2 m + e) - e) as [|p|p] eqn:E;
    inversion H; subst; clear H; rewrite ?iter_shr_1_m, ?shr_record_of_loc_m;
    rewrite ?shr_record_of_loc_m; try lia.
  split; [apply Z.div_pos; [lia | apply Z.pow_pos_nonneg; lia] | lia].
Qed.

Lemma shr_fexp_pos (m e : Z) (l : location) (mrs : shr_record) (e' : Z) :
  0 < m -> -1074 <= e ->
  shr_fexp PyFloat.prec PyFloat.emax m e l = (mrs, e') ->
  0 < shr_m mrs.
Proof.
  unfold shr_fexp, shr, fexp, emin, PyFloat.prec, PyFloat.emax. intros Hm He H.
  destruct m as [|q|q]; try lia. cbn [Zdigits2] in H.
  destruct (Z.max (Z.pos (digits2_pos q) + e - 53) (3 - 1024 - 53) - e) as [|p|p] eqn:E;
    inversion H; subst; clear H; rewrite ?iter_shr_1_m, ?shr_record_of_loc_m;
    rewrite ?shr_record_of_loc_m; try lia.
  pose proof (digits2_pos_bounds q) as [Hlo _].
  assert (Hp : Z.pos p <= Z.pos (digits2_pos q) - 1) by lia.
  assert (2 ^ Z.pos p <= 2 ^ (Z.pos (digits2_pos q) - 1)) by (apply Z.pow_le_mono_r; lia).
  assert (0 < 2 ^ Z.pos p) by (apply Z.pow_pos_nonneg; lia).
  apply Z.div_str_pos. lia.
Qed.

Lemma round_nearest_even_ge (m : Z) (l : location) :
  m <= round_nearest_even m l.
Proof.
  unfold round_nearest_even. destruct l as [|[| |]]; try lia.
  destruct (Z.even m); lia.
Qed.

Lemma binary_round_aux_signed (s : bool) (m e : Z) (l : location) :
  0 <= m -> signed s (binary_round_aux PyFloat.prec PyFloat.emax s m e l).
Proof.
  intros Hm. unfold binary_round_aux.
  destruct (shr_fexp PyFloat.prec PyFloat.emax m e l) as [mrs1 e1] eqn:E1.
  destruct (shr_fexp_nonneg _ _ _ _ _ Hm E1) as [H1 _].
  pose proof (round_nearest_even_ge (shr_m mrs1) (loc_of_shr_record mrs1)) as Hr.
  destruct (shr_fexp PyFloat.prec PyFloat.emax
              (round_nearest_even (shr_m mrs1) (loc_of_shr_record mrs1)) e1 loc_Exact)
    as [mrs2 e2] eqn:E2.
  destruct (shr_fexp_nonneg _ _ _ _ _ (Z.le_trans _ _ _ H1 Hr) E2) as [H2 _].
  destruct (shr_m mrs2) as [|q|q]; try lia; try reflexivity.
  destruct (_ <=? _); reflexivity.
Qed.

Lemma binary_round_aux_signed_nonzero (s : bool) (m e : Z) (l : location) :
  0 < m -> -1074 <= e ->
  signed_nonzero s (binary_round_aux PyFloat.prec PyFloat.emax s m e l).
Proof.
  intros Hm He. unfold binary_round_aux.
  destruct (shr_fexp PyFloat.prec PyFloat.emax m e l) as [mrs1 e1] eqn:E1.
  pose proof (shr_fexp_pos _ _ _ _ _ Hm He E1) as H1.
  destruct (shr_fexp_nonneg _ _ _ _ _ (Z.lt_le_incl _ _ Hm) E1) as [_ He1].
  pose proof (round_nearest_even_ge (shr_m mrs1) (loc_of_shr_record mrs1)) as Hr.
  destruct (shr_fexp PyFloat.prec PyFloat.emax
              (round_nearest_even (shr_m mrs1) (loc_of_shr_record mrs1)) e1 loc_Exact)
    as [mrs2 e2] eqn:E2.
  assert (H2 : 0 < shr_m mrs2) by (eapply shr_fexp_pos; [| | exact E2]; lia).
  destruct (shr_m mrs2) as [|q|q]; try lia.
  destruct (_ <=? _); reflexivity.
Qed.

Lemma nonneg_signed (x : float) : signed false x -> PyFloat.nonneg x = true.
Proof. destruct x as [s|s| |s m e]; cbn; intros H; subst; try reflexivity; contradiction. Qed.

Lemma shl_iter_value (m d : positive) :
  Zpos (Pos.iter xO m d) = Zpos m * 2 ^ Zpos d.
Proof.
  induction d as [|d IH] using Pos.peano_ind.
  - cbn. lia.
  - rewrite Pos.iter_succ, Pos2Z.inj_xO, IH, Pos2Z.inj_succ, Z.pow_succ_r by lia. ring.
Qed.

Lemma shl_align_value (m : positive) (e e' : Z) :
  e' <= e -> Zpos (fst (shl_align m e e')) = Zpos m * 2 ^ (e - e').
Proof.
  intros He. unfold shl_align.
  destruct (e' - e) as [|d|d] eqn:E; cbn [fst]; try lia.
  - replace (e - e') with 0 by lia. cbn. lia.
  - rewrite shl_iter_value. f_equal. f_equal. lia.
Qed.

Lemma shl_align_exponent (m : positive) (e e' : Z) :
  -1074 <= e -> -1074 <= e' -> -1074 <= snd (shl_align m e e').
Proof.
  intros. unfold shl_align. destruct (e' - e); cbn [snd]; lia.
Qed.

Lemma binary_round_signed_nonzero (s : bool) (m : positive) (e : Z) :
  -1074 <= e -> signed_nonzero s (binary_round PyFloat.prec PyFloat.emax s m e).
Proof.
  intros He. unfold binary_round.
  destruct (shl_align m e _) as [mz ez] eqn:E.
  apply binary_round_aux_signed_nonzero; [lia |].
  change ez with (snd (mz, ez)). rewrite <- E.
  apply shl_align_exponent; [lia |]. unfold fexp, emin, PyFloat.emax, PyFloat.prec. lia.
Qed.

Lemma binary_round_signed (s : bool) (m : positive) (e : Z) :
  signed s (binary_round PyFloat.prec PyFloat.emax s m e).
Proof.
  unfold binary_round. destruct (shl_align m e _) as [mz ez].
  apply binary_round_aux_signed. lia.
Qed.

(** A converted integer keeps its sign and is zero only for [0]. *)
Lemma of_Z_signed_nonzero (n : Z) :
  n <> 0 -> signed_nonzero (n <? 0) (PyFloat.of_Z n).
Proof.
  intros Hn. unfold PyFloat.of_Z, binary_normalize.
  destruct n as [|m|m]; [lia | |]; apply binary_round_signed_nonzero; lia.
Qed.

Lemma truediv_zero (x : float) :
  truediv x 0 = Raise (ZeroDivisionError "float division by zero").
Proof. reflexivity. Qed.

Lemma truediv_overflow (x : float) (n : Z) :
  PyFloat.is_finite (PyFloat.of_Z n) = false ->
  truediv x n = Raise (OverflowError "int too large to convert to float").
Proof. intros H. unfold truediv, float_of_int. now rewrite H. Qed.

Lemma truediv_ok (x : float) (n : Z) :
  n <> 0 -> PyFloat.is_finite (PyFloat.of_Z n) = true ->
  truediv x n = Ok (PyFloat.div x (PyFloat.of_Z n)).
Proof.
  intros Hn Hfin. unfold truediv, float_of_int. rewrite Hfin.
  pose proof (of_Z_signed_nonzero n Hn) as Hs.
  destruct (PyFloat.of_Z n) as [s|s| |s m e]; cbn in Hs; try contradiction.
  - discriminate.
  - now destruct s.
Qed.

Lemma div_nonneg (x d : float) :
  PyFloat.nonneg x = true -> signed_nonzero false d -> PyFloat.is_finite d = true ->
  PyFloat.nonneg (PyFloat.div x d) = true.
Proof.
  intros Hx Hd Hfin.
  destruct d as [sd|sd| |sd md ed]; cbn in Hd; try contradiction; try discriminate.
  subst sd.
  destruct x as [sx|sx| |sx mx ex]; try discriminate.
  - reflexivity.
  - destruct sx; [discriminate | reflexivity].
  - destruct sx; [discriminate |].
    apply nonneg_signed. unfold PyFloat.div, SFdiv. cbn [xorb].
    destruct (SFdiv_core_binary _ _ _ _ _ _) as [[mz ez] lz] eqn:E.
    apply binary_round_aux_signed.
    unfold SFdiv_core_binary in E.
    set (a := match _ - _ - _ with Z0 => Z.pos mx | Zpos _ => _ | Zneg _ => 0 end) in E.
    assert (Ha : 0 <= a).
    { subst a. destruct (_ - _ - _); try lia. apply Z.shiftl_nonneg. lia. }
    pose proof (Z.div_pos a (Z.pos md) Ha ltac:(lia)) as Hq.
    unfold Z.div in Hq. destruct (Z.div_eucl a (Z.pos md)) as [q r].
    inversion E; subst. exact Hq.
Qed.

Lemma mul_thousand_nonneg (x : float) :
  PyFloat.nonneg x = true -> PyFloat.nonneg (PyFloat.mul x PyFloat.thousand) = true.
Proof.
  intros Hx. destruct x as [sx|sx| |sx mx ex]; try discriminate.
  - reflexivity.
  - destruct sx; [discriminate | reflexivity].
  - destruct sx; [discriminate |].
    apply nonneg_signed. unfold PyFloat.mul, PyFloat.thousand, SFmul. cbn [xorb].
    apply binary_round_aux_signed. lia.
Qed.

(** What well-formedness says of a finite datum [m * 2^e]. *)
Lemma well_formed_finite (s : bool) (m : positive) (e : Z) :
  PyFloat.well_formed (S754_finite s m e) = true ->
  -1074 <= e /\ Zpos m < 2 ^ 53 /\ (-1074 < e -> 2 ^ 52 <= Zpos m).
Proof.
  unfold PyFloat.well_formed, valid_binary, bounded, canonical_mantissa, fexp, emin,
    PyFloat.prec, PyFloat.emax.
  intros H. apply andb_prop in H as [H _]. apply Z.eqb_eq in H.
  pose proof (digits2_pos_bounds m) as [Hlo Hhi].
  assert (Hd : Zpos (digits2_pos m) <= 53) by lia.
  assert (2 ^ Zpos (digits2_pos m) <= 2 ^ 53) by (apply Z.pow_le_mono_r; lia).
  repeat split; try lia.
  intros He. assert (Hd' : Zpos (digits2_pos m) = 53) by lia.
  rewrite Hd' in Hlo. exact Hlo.
Qed.

(** Two well-formed magnitudes with exponents [e1 < e2] are ordered like
    their exponents. *)
Lemma magnitude_lt (m1 m2 : positive) (e1 e2 : Z) (s1 s2 : bool) :
  PyFloat.well_formed (S754_finite s1 m1 e1) = true ->
  PyFloat.well_formed (S754_finite s2 m2 e2) = true ->
  e1 < e2 ->
  Zpos m1 * 2 ^ (e1 - e1) <= Zpos m2 * 2 ^ (e2 - e1).
Proof.
  intros H1 H2 He.
  destruct (well_formed_finite _ _ _ H1) as (He1 & Hm1 & _).
  destruct (well_formed_finite _ _ _ H2) as (_ & _ & Hm2).
  specialize (Hm2 ltac:(lia)).
  rewrite Z.sub_diag, Z.pow_0_r, Z.mul_1_r.
  assert (H2e : 2 ^ 1 <= 2 ^ (e2 - e1)) by (apply Z.pow_le_mono_r; lia).
  change (2 ^ 1) with 2 in H2e.
  change (2 ^ 53) with (2 ^ 52 * 2) in Hm1.
  assert (2 ^ 52 * 2 <= Zpos m2 * 2 ^ (e2 - e1)) by (apply Z.mul_le_mono_nonneg; lia).
  lia.
Qed.

(** Subtracting a smaller reading from a larger one never gives a negative
    number. *)
Lemma sub_nonneg (start end_ : float) :
  PyFloat.well_formed start = true -> PyFloat.is_finite start = true ->
  PyFloat.well_formed end_ = true -> PyFloat.is_finite end_ = true ->
  PyFloat.leb start end_ = true ->
  PyFloat.nonneg (PyFloat.sub end_ start) = true.
Proof.
  intros Hws Hfs Hwe Hfe Hle.
  destruct start as [ss|ss| |ss ms es]; try discriminate;
    destruct end_ as [se|se| |se me ee]; try discriminate.
  - now destruct ss, se.
  - destruct se; [discriminate | reflexivity].
  - destruct ss; [reflexivity | discriminate].
  - apply nonneg_signed. unfold PyFloat.sub, SFsub, binary_normalize.
    set (ez := Z.min ee es).
    rewrite !shl_align_value by (subst ez; lia).
    assert (Hpe : 0 < Zpos me * 2 ^ (ee - ez))
      by (apply Z.mul_pos_pos; [lia | apply Z.pow_pos_nonneg; subst ez; lia]).
    assert (Hps : 0 < Zpos ms * 2 ^ (es - ez))
      by (apply Z.mul_pos_pos; [lia | apply Z.pow_pos_nonneg; subst ez; lia]).
    assert (Hdiff : 0 <= cond_Zopp se (Zpos me * 2 ^ (ee - ez))
                         - cond_Zopp ss (Zpos ms * 2 ^ (es - ez))).
    { unfold PyFloat.leb, SFleb, SFcompare in Hle.
      destruct ss, se; cbn [cond_Zopp]; try discriminate; try lia.
      - destruct (Z.compare_spec es ee) as [Heq|Hlt|Hgt]; try discriminate.
        + subst ee. fold (Pos.compare ms me) in Hle.
          destruct (Pos.compare_spec ms me) as [Hm|Hm|Hm]; try discriminate; subst; nia.
        + pose proof (magnitude_lt _ _ _ _ _ _ Hwe Hws Hgt) as H.
          subst ez. rewrite Z.min_l by lia. lia.
      - destruct (Z.compare_spec es ee) as [Heq|Hlt|Hgt]; try discriminate.
        + subst ee. fold (Pos.compare ms me) in Hle.
          destruct (Pos.compare_spec ms me) as [Hm|Hm|Hm]; try discriminate; subst; nia.
        + pose proof (magnitude_lt _ _ _ _ _ _ Hws Hwe Hlt) as H.
          subst ez. rewrite Z.min_r by lia. lia. }
    revert Hdiff.
    generalize (cond_Zopp se (Zpos me * 2 ^ (ee - ez)) - cond_Zopp ss (Zpos ms * 2 ^ (es - ez))).
    intros [|d|d] Hdiff; [exact eq_refl | apply binary_round_signed | lia].
Qed.

(** ** Magnitudes *)

Lemma Zdigits2_nonneg (m : Z) : 0 <= Zdigits2 m.
Proof. destruct m; cbn; lia. Qed.

(** A number below [2^k] has at most [k] binary digits. *)
Lemma Zdigits2_upper (m k : Z) : 0 <= m < 2 ^ k -> 0 <= k -> Zdigits2 m <= k.
Proof.
  intros [Hm Hlt] Hk. destruct m as [|p|p]; cbn [Zdigits2]; try lia.
  pose proof (digits2_pos_bounds p) as [Hlo _].
  destruct (Z_le_gt_dec (Zpos (digits2_pos p)) k) as [|Hgt]; [assumption |].
  assert (2 ^ k <= 2 ^ (Zpos (digits2_pos p) - 1)) by (apply Z.pow_le_mono_r; lia).
  lia.
Qed.

Lemma Zdigits2_lt_pow (m : Z) : 0 <= m -> m < 2 ^ Zdigits2 m.
Proof.
  intros Hm. destruct m as [|p|p]; cbn [Zdigits2]; try lia.
  apply digits2_pos_bounds.
Qed.

Lemma Zdigits2_le_mono (a b : Z) : 0 <= a <= b -> Zdigits2 a <= Zdigits2 b.
Proof.
  intros [Ha Hab]. apply Zdigits2_upper; [| apply Zdigits2_nonneg].
  pose proof (Zdigits2_lt_pow b ltac:(lia)). lia.
Qed.

Lemma Zdigits2_succ (m : Z) : 0 <= m -> Zdigits2 (m + 1) <= Zdigits2 m + 1.
Proof.
  intros Hm. pose proof (Zdigits2_nonneg m). apply Zdigits2_upper; [| lia].
  pose proof (Zdigits2_lt_pow m Hm). rewrite Z.pow_add_r, Z.pow_1_r by lia. lia.
Qed.

Lemma Zdigits2_add (a b : Z) :
  0 <= a -> 0 <= b -> Zdigits2 (a + b) <= Z.max (Zdigits2 a) (Zdigits2 b) + 1.
Proof.
  intros Ha Hb. pose proof (Zdigits2_nonneg a). pose proof (Zdigits2_nonneg b).
  apply Zdigits2_upper; [| lia].
  pose proof (Zdigits2_lt_pow a Ha). pose proof (Zdigits2_lt_pow b Hb).
  assert (2 ^ Zdigits2 a <= 2 ^ Z.max (Zdigits2 a) (Zdigits2 b))
    by (apply Z.pow_le_mono_r; lia).
  assert (2 ^ Zdigits2 b <= 2 ^ Z.max (Zdigits2 a) (Zdigits2 b))
    by (apply Z.pow_le_mono_r; lia).
  rewrite Z.pow_add_r, Z.pow_1_r by lia. lia.
Qed.

Lemma Zdigits2_mul (a b : Z) :
  0 <= a -> 0 <= b -> Zdigits2 (a * b) <= Zdigits2 a + Zdigits2 b.
Proof.
  intros Ha Hb. pose proof (Zdigits2_nonneg a). pose proof (Zdigits2_nonneg b).
  apply Zdigits2_upper; [| lia].
  pose proof (Zdigits2_lt_pow a Ha). pose proof (Zdigits2_lt_pow b Hb).
  rewrite Z.pow_add_r by lia. split; [nia |].
  apply Z.mul_lt_mono_nonneg; lia.
Qed.

Lemma Zdigits2_mul_pow2 (m s : Z) :
  0 <= m -> 0 <= s -> Zdigits2 (m * 2 ^ s) <= Zdigits2 m + s.
Proof.
  intros Hm Hs. pose proof (Zdigits2_nonneg m).
  assert (0 < 2 ^ s) by (apply Z.pow_pos_nonneg; lia).
  apply Zdigits2_upper; [| lia].
  pose proof (Zdigits2_lt_pow m Hm). rewrite Z.pow_add_r by lia.
  split; [nia |]. apply Z.mul_lt_mono_pos_r; lia.
Qed.

Lemma Zdigits2_div_pow2 (m p : Z) :
  0 <= m -> 0 < p -> Zdigits2 (m / 2 ^ p) <= Z.max (Zdigits2 m - p) 0.
Proof.
  intros Hm Hp. pose proof (Zdigits2_nonneg m).
  assert (H2p : 0 < 2 ^ p) by (apply Z.pow_pos_nonneg; lia).
  pose proof (Zdigits2_lt_pow m Hm) as Hlt.
  destruct (Z_le_gt_dec p (Zdigits2 m)) as [Hle|Hgt].
  - apply Zdigits2_upper; [| lia]. split; [apply Z.div_pos; lia |].
    rewrite Z.max_l by lia. apply Z.div_lt_upper_bound; [lia |].
    rewrite <- Z.pow_add_r by lia. now replace (p + (Zdigits2 m - p)) with (Zdigits2 m) by lia.
  - assert (2 ^ Zdigits2 m <= 2 ^ p) by (apply Z.pow_le_mono_r; lia).
    rewrite Z.div_small by lia. cbn. lia.
Qed.

Lemma below_is_finite (k : Z) (x : float) : PyFloat.below k x = true -> PyFloat.is_finite x = true.
Proof. destruct x; cbn; congruence. Qed.

Lemma below_weaken (k k' : Z) (x : float) :
  k <= k' -> PyFloat.below k x = true -> PyFloat.below k' x = true.
Proof.
  intros Hk. destruct x as [s|s| |s m e]; cbn; try congruence.
  intros H. apply Z.leb_le in H. apply Z.leb_le. lia.
Qed.

Lemma fexp_binary64 (x : Z) :
  fexp PyFloat.prec PyFloat.emax x = Z.max (x - 53) (-1074).
Proof. reflexivity. Qed.

(** One shift of the rounding: the exponent does not decrease and the
    magnitude does not grow. *)
Lemma shr_fexp_magnitude (m e : Z) (l : location) (mrs : shr_record) (e' : Z) :
  0 <= m ->
  shr_fexp PyFloat.prec PyFloat.emax m e l = (mrs, e') ->
  0 <= shr_m mrs
  /\ e <= e' <= Z.max e (Z.max (Zdigits2 m + e - 53) (-1074))
  /\ Zdigits2 (shr_m mrs) + e' <= Z.max (Zdigits2 m + e) e'.
Proof.
  unfold shr_fexp, shr. rewrite fexp_binary64. intros Hm H.
  pose proof (Zdigits2_nonneg m) as Hd.
  destruct (Z.max (Zdigits2 m + e - 53) (-1074) - e) as [|p|p] eqn:E;
    inversion H; subst; clear H; rewrite ?iter_shr_1_m, ?shr_record_of_loc_m;
    rewrite ?shr_record_of_loc_m; try lia.
  assert (0 < 2 ^ Z.pos p) by (apply Z.pow_pos_nonneg; lia).
  pose proof (Zdigits2_div_pow2 m (Z.pos p) Hm ltac:(lia)).
  split; [apply Z.div_pos; lia | lia].
Qed.

Lemma round_nearest_even_le (m : Z) (l : location) :
  round_nearest_even m l <= m + 1.
Proof.
  unfold round_nearest_even. destruct l as [|[| |]]; try lia.
  destruct (Z.even m); lia.
Qed.

(** Rounding a value below [2^k] gives a finite number below [2^(k+1)]. *)
Lemma binary_round_aux_below (s : bool) (m e : Z) (l : location) (k : Z) :
  0 <= m -> e <= k -> Zdigits2 m + e <= k -> -1074 <= k <= 971 ->
  PyFloat.below (k + 1) (binary_round_aux PyFloat.prec PyFloat.emax s m e l) = true.
Proof.
  intros Hm He Hmag Hk. unfold binary_round_aux.
  destruct (shr_fexp PyFloat.prec PyFloat.emax m e l) as [mrs1 e1] eqn:E1.
  destruct (shr_fexp_magnitude _ _ _ _ _ Hm E1) as (H1 & He1 & Hm1).
  pose proof (round_nearest_even_ge (shr_m mrs1) (loc_of_shr_record mrs1)) as Hge.
  pose proof (round_nearest_even_le (shr_m mrs1) (loc_of_shr_record mrs1)) as Hle.
  set (m2 := round_nearest_even (shr_m mrs1) (loc_of_shr_record mrs1)) in *.
  assert (Hd2 : Zdigits2 m2 <= Zdigits2 (shr_m mrs1) + 1).
  { etransitivity; [apply (Zdigits2_le_mono m2 (shr_m mrs1 + 1)); lia |].
    apply Zdigits2_succ; lia. }
  destruct (shr_fexp PyFloat.prec PyFloat.emax m2 e1 loc_Exact) as [mrs2 e2] eqn:E2.
  assert (H0m2 : 0 <= m2) by lia.
  destruct (shr_fexp_magnitude _ _ _ _ _ H0m2 E2) as (H2 & He2 & Hm2).
  destruct (shr_m mrs2) as [|q|q] eqn:Eq; [reflexivity | | lia].
  cbn [Zdigits2] in Hm2.
  replace (e2 <=? PyFloat.emax - PyFloat.prec) with true
    by (symmetry; apply Z.leb_le; unfold PyFloat.emax, PyFloat.prec; lia).
  cbn [PyFloat.below]. apply Z.leb_le. lia.
Qed.

Lemma shl_align_magnitude (m : positive) (e e' : Z) :
  let '(mz, ez) := shl_align m e e' in
  Zpos (digits2_pos mz) + ez <= Zpos (digits2_pos m) + e /\ ez <= e.
Proof.
  unfold shl_align. destruct (e' - e) as [|d|d] eqn:E; try lia.
  pose proof (Zdigits2_mul_pow2 (Zpos m) (Zpos d) ltac:(lia) ltac:(lia)) as H.
  rewrite <- shl_iter_value in H. cbn [Zdigits2] in H. lia.
Qed.

Lemma binary_round_below (s : bool) (m : positive) (e k : Z) :
  Zpos (digits2_pos m) + e <= k -> -1074 <= k <= 971 ->
  PyFloat.below (k + 1) (binary_round PyFloat.prec PyFloat.emax s m e) = true.
Proof.
  intros Hmag Hk. unfold binary_round.
  pose proof (shl_align_magnitude m e
                (fexp PyFloat.prec PyFloat.emax (Zpos (digits2_pos m) + e))) as H.
  destruct (shl_align m e _) as [mz ez]. destruct H as [H1 H2].
  apply binary_round_aux_below; cbn [Zdigits2]; try lia.
Qed.

Lemma binary_round_aux_exponent (s : bool) (m0 e0 : Z) (l : location)
    (s' : bool) (m : positive) (e : Z) :
  0 <= m0 ->
  binary_round_aux PyFloat.prec PyFloat.emax s m0 e0 l = S754_finite s' m e ->
  e0 <= e.
Proof.
  intros Hm. unfold binary_round_aux.
  destruct (shr_fexp PyFloat.prec PyFloat.emax m0 e0 l) as [mrs1 e1] eqn:E1.
  destruct (shr_fexp_magnitude _ _ _ _ _ Hm E1) as (H1 & He1 & _).
  pose proof (round_nearest_even_ge (shr_m mrs1) (loc_of_shr_record mrs1)) as Hge.
  set (m2 := round_nearest_even (shr_m mrs1) (loc_of_shr_record mrs1)) in *.
  assert (H0m2 : 0 <= m2) by lia.
  destruct (shr_fexp PyFloat.prec PyFloat.emax m2 e1 loc_Exact) as [mrs2 e2] eqn:E2.
  destruct (shr_fexp_magnitude _ _ _ _ _ H0m2 E2) as (_ & He2 & _).
  destruct (shr_m mrs2) as [|q|q]; try discriminate.
  destruct (_ <=? _); [| discriminate].
  intros H. inversion H; subst. lia.
Qed.

(** The exponent of a converted integer is at least [-52]. *)
Lemma of_Z_exponent (n : Z) (s : bool) (m : positive) (e : Z) :
  PyFloat.of_Z n = S754_finite s m e -> -52 <= e.
Proof.
  unfold PyFloat.of_Z, binary_normalize.
  assert (H : forall sg p, binary_round PyFloat.prec PyFloat.emax sg p 0
                           = S754_finite s m e -> -52 <= e).
  { intros sg p. unfold binary_round, shl_align. rewrite fexp_binary64.
    pose proof (Pos2Z.is_pos (digits2_pos p)).
    destruct (Z.max (Z.pos (digits2_pos p) + 0 - 53) (-1074) - 0) as [|d|d] eqn:E;
      intros Hr; apply binary_round_aux_exponent in Hr; lia. }
  destruct n as [|p|p]; [discriminate | apply H | apply H].
Qed.

Lemma sub_below (k : Z) (start end_ : float) :
  PyFloat.below k start = true -> PyFloat.below k end_ = true -> -1075 <= k <= 970 ->
  PyFloat.below (k + 2) (PyFloat.sub end_ start) = true.
Proof.
  intros Hs He Hk.
  destruct start as [ss|ss| |ss ms es]; try discriminate;
    destruct end_ as [se|se| |se me ee]; try discriminate.
  - now destruct ss, se.
  - cbn in *. apply Z.leb_le in He. apply Z.leb_le. lia.
  - cbn in *. apply Z.leb_le in Hs. apply Z.leb_le. lia.
  - cbn [PyFloat.below] in Hs, He. apply Z.leb_le in Hs. apply Z.leb_le in He.
    unfold PyFloat.sub, SFsub, binary_normalize.
    set (ez := Z.min ee es).
    rewrite !shl_align_value by (subst ez; lia).
    set (ME := Zpos me * 2 ^ (ee - ez)). set (MS := Zpos ms * 2 ^ (es - ez)).
    assert (HME : 0 < ME) by (apply Z.mul_pos_pos; [lia | apply Z.pow_pos_nonneg; subst ez; lia]).
    assert (HMS : 0 < MS) by (apply Z.mul_pos_pos; [lia | apply Z.pow_pos_nonneg; subst ez; lia]).
    assert (HdE : Zdigits2 ME + ez <= k).
    { pose proof (Zdigits2_mul_pow2 (Zpos me) (ee - ez) ltac:(lia) ltac:(subst ez; lia)).
      cbn [Zdigits2] in *. fold ME in H. lia. }
    assert (HdS : Zdigits2 MS + ez <= k).
    { pose proof (Zdigits2_mul_pow2 (Zpos ms) (es - ez) ltac:(lia) ltac:(subst ez; lia)).
      cbn [Zdigits2] in *. fold MS in H. lia. }
    pose proof (Zdigits2_add ME MS ltac:(lia) ltac:(lia)) as Hadd.
    assert (Habs : forall d, Z.abs d <= ME + MS -> Zdigits2 (Z.abs d) + ez <= k + 1).
    { intros d Hd. pose proof (Zdigits2_le_mono (Z.abs d) (ME + MS) ltac:(lia)). lia. }
    assert (Hbound : Z.abs (cond_Zopp se ME - cond_Zopp ss MS) <= ME + MS)
      by (destruct se, ss; cbn [cond_Zopp]; lia).
    specialize (Habs _ Hbound). clearbody ME MS.
    destruct (cond_Zopp se ME - cond_Zopp ss MS) as [|d|d]; [reflexivity | |];
      cbn [Z.abs Zdigits2] in Habs;
      replace (k + 2) with (k + 1 + 1) by lia; apply binary_round_below; lia.
Qed.

Lemma div_below (k : Z) (x d : float) :
  PyFloat.below k x = true -> signed_nonzero false d \/ signed_nonzero true d ->
  PyFloat.is_finite d = true ->
  (forall s m e, d = S754_finite s m e -> -52 <= e) ->
  -1074 <= k <= 919 ->
  PyFloat.below (k + 53) (PyFloat.div x d) = true.
Proof.
  intros Hx Hd Hfin Hexp Hk.
  destruct d as [sd|sd| |sd md ed]; try discriminate;
    try (cbn in Hd; tauto).
  specialize (Hexp _ _ _ eq_refl).
  destruct x as [sx|sx| |sx mx ex]; try discriminate; [reflexivity |].
  cbn [PyFloat.below] in Hx. apply Z.leb_le in Hx.
  unfold PyFloat.div, SFdiv.
  destruct (SFdiv_core_binary _ _ _ _ _ _) as [[mz ez] lz] eqn:E.
  unfold SFdiv_core_binary in E. rewrite fexp_binary64 in E. cbn [Zdigits2] in E.
  set (d1 := Zpos (digits2_pos mx)) in *. set (d2 := Zpos (digits2_pos md)) in *.
  set (e' := Z.min (Z.max (d1 + ex - (d2 + ed) - 53) (-1074)) (ex - ed)) in *.
  assert (Hd1 : 0 < d1) by (subst d1; lia).
  set (a := match ex - ed - e' with Z0 => Z.pos mx | Zpos _ => _ | Zneg _ => 0 end) in E.
  assert (Ha : 0 <= a /\ Zdigits2 a + e' <= d1 + ex - ed).
  { subst a. destruct (ex - ed - e') as [|p|p] eqn:Es.
    - cbn [Zdigits2]. fold d1. lia.
    - rewrite Z.shiftl_mul_pow2 by lia.
      pose proof (Zdigits2_mul_pow2 (Zpos mx) (Zpos p) ltac:(lia) ltac:(lia)) as H.
      cbn [Zdigits2] in H. fold d1 in H.
      assert (0 < 2 ^ Zpos p) by (apply Z.pow_pos_nonneg; lia).
      split; [nia | lia].
    - lia. }
  destruct Ha as [Ha Hda].
  pose proof (Z.div_pos a (Z.pos md) Ha ltac:(lia)) as Hq.
  assert (Hqa : a / Z.pos md <= a).
  { apply Z.div_le_upper_bound; [lia | nia]. }
  unfold Z.div in Hq, Hqa. destruct (Z.div_eucl a (Z.pos md)) as [q r].
  inversion E; subst mz ez lz. clear E.
  pose proof (Zdigits2_le_mono q a ltac:(lia)) as Hdq.
  replace (k + 53) with (k + 52 + 1) by lia.
  apply binary_round_aux_below; lia.
Qed.

Lemma mul_thousand_below (k : Z) (x : float) :
  PyFloat.below k x = true -> -1074 <= k <= 961 ->
  PyFloat.below (k + 11) (PyFloat.mul x PyFloat.thousand) = true.
Proof.
  intros Hx Hk. destruct x as [sx|sx| |sx mx ex]; try discriminate; [reflexivity |].
  cbn [PyFloat.below] in Hx. apply Z.leb_le in Hx.
  unfold PyFloat.mul, PyFloat.thousand, SFmul.
  pose proof (Zdigits2_mul (Zpos mx) (Zpos 8796093022208000) ltac:(lia) ltac:(lia)) as H.
  change (Zdigits2 (Z.pos 8796093022208000)) with 53 in H.
  cbn [Zdigits2 Z.mul] in H.
  pose proof (Pos2Z.is_pos (digits2_pos mx)).
  replace (k + 11) with (k + 10 + 1) by lia.
  apply binary_round_aux_below; cbn [Zdigits2]; lia.
Qed.

(** With readings below [2^64] seconds the mean is a finite number. *)
Lemma average_ms_finite (start end_ : float) (repeat : Z) (avg_ms : float) :
  PyFloat.below 64 start = true -> PyFloat.below 64 end_ = true ->
  average_ms start end_ repeat = Ok avg_ms ->
  PyFloat.is_finite avg_ms = true.
Proof.
  intros Hs He. unfold average_ms, truediv, float_of_int.
  destruct (PyFloat.is_finite (PyFloat.of_Z repeat)) eqn:Hfin; [| discriminate].
  destruct (PyFloat.eqb (PyFloat.of_Z repeat) PyFloat.zero) eqn:Hz; [discriminate |].
  intros H. injection H as <-.
  apply (below_is_finite 130), (mul_thousand_below 119); [| lia].
  apply (div_below 66); try lia.
  - apply (sub_below 64); auto; lia.
  - destruct (Z.eq_dec repeat 0) as [-> | Hn]; [discriminate Hz |].
    pose proof (of_Z_signed_nonzero repeat Hn). destruct (repeat <? 0); auto.
  - exact Hfin.
  - intros s m e. apply of_Z_exponent.
Qed.

(** Every integer below [2^971] in absolute value converts to a float. *)
Lemma of_Z_finite (n : Z) :
  Z.abs n < 2 ^ 971 -> PyFloat.is_finite (PyFloat.of_Z n) = true.
Proof.
  intros Hn. unfold PyFloat.of_Z, binary_normalize.
  destruct n as [|p|p]; [reflexivity | |];
    apply (below_is_finite 972); change 972 with (971 + 1);
    apply binary_round_below; try lia;
    pose proof (Zdigits2_upper (Zpos p) 971 ltac:(cbn [Z.abs] in Hn; lia) ltac:(lia)) as H;
    cbn [Zdigits2] in H; lia.
Qed.

(** ** Text *)

Lemma string_length_app (s1 s2 : string) :
  String.length (s1 ++ s2) = (String.length s1 + String.length s2)%nat.
Proof. induction s1 as [|c s1 IH]; cbn; congruence. Qed.

Lemma spaces_length (n : nat) : String.length (spaces n) = n.
Proof. induction n as [|n IH]; cbn; congruence. Qed.

Lemma ljust_length (width : nat) (s : string) :
  String.length (ljust width s) = Nat.max width (String.length s).
Proof. unfold ljust. rewrite string_length_app, spaces_length. lia. Qed.

Lemma rjust_length (width : nat) (s : string) :
  String.length (rjust width s) = Nat.max width (String.length s).
Proof. unfold rjust. rewrite string_length_app, spaces_length. lia. Qed.

Lemma digit_char_is_digit (d : Z) : 0 <= d <= 9 -> is_digit (digit_char d) = true.
Proof.
  intros H.
  assert (Hd : d = 0 \/ d = 1 \/ d = 2 \/ d = 3 \/ d = 4 \/ d = 5 \/ d = 6 \/ d = 7
               \/ d = 8 \/ d = 9) by lia.
  repeat (destruct Hd as [Hd|Hd]; [subst d; reflexivity |]). subst d. reflexivity.
Qed.

Lemma two_digits_shape (n : Z) :
  0 <= n < 100 ->
  String.length (two_digits n) = 2%nat /\ all_digits (two_digits n) = true.
Proof.
  intros H. unfold two_digits. split; [reflexivity |]. cbn [all_digits].
  rewrite !digit_char_is_digit; [reflexivity | |].
  - pose proof (Z.mod_pos_bound n 10). lia.
  - split; [apply Z.div_pos; lia |].
    assert (n / 10 < 10) by (apply Z.div_lt_upper_bound; lia). lia.
Qed.

Lemma string_of_uint_digits (d : uint) :
  all_digits (NilEmpty.string_of_uint d) = true.
Proof. induction d; cbn; auto. Qed.

Lemma string_of_uint_nonempty (d : uint) :
  d <> Nil -> NilEmpty.string_of_uint d <> EmptyString.
Proof. destruct d; cbn; congruence. Qed.

Lemma str_of_Z_shape (n : Z) :
  0 <= n -> all_digits (str_of_Z n) = true /\ str_of_Z n <> EmptyString.
Proof.
  intros Hn. unfold str_of_Z, NilZero.string_of_int, Z.to_int.
  destruct n as [|p|p]; [split; [reflexivity | discriminate] | | lia].
  unfold NilZero.string_of_uint.
  destruct (Pos.to_uint p) eqn:E; try (split; [reflexivity | discriminate]);
    rewrite <- E; (split; [apply string_of_uint_digits |
                           apply string_of_uint_nonempty; rewrite E; discriminate]).
Qed.

Lemma round_half_even_div_nonneg (a d : Z) :
  0 <= a -> 0 < d -> 0 <= round_half_even_div a d.
Proof.
  intros Ha Hd. unfold round_half_even_div.
  pose proof (Z.div_pos a d Ha Hd).
  destruct (2 * (a mod d) ?= d); [destruct (Z.even (a / d)) | |]; lia.
Qed.

Lemma hundredths_nonneg (m : positive) (e : Z) : 0 <= hundredths m e.
Proof.
  unfold hundredths. destruct e as [|k|k].
  - cbn. lia.
  - assert (0 < 2 ^ Z.pos k) by (apply Z.pow_pos_nonneg; lia). nia.
  - apply round_half_even_div_nonneg; [lia | apply Z.pow_pos_nonneg; lia].
Qed.

(** A finite number is printed as an optional minus sign, at least one
    digit, a point and two digits. *)
Lemma format_2f_finite (x : float) :
  PyFloat.is_finite x = true ->
  exists sign int_part frac_part,
    format_2f x = (sign ++ int_part ++ "." ++ frac_part)%string
    /\ (sign = EmptyString \/ sign = "-"%string)
    /\ int_part <> EmptyString /\ all_digits int_part = true
    /\ String.length frac_part = 2%nat /\ all_digits frac_part = true.
Proof.
  destruct x as [s|s| |s m e]; try discriminate; intros _.
  - exists (sign_text s), "0"%string, "00"%string. cbn [format_2f].
    repeat split; try discriminate. destruct s; auto.
  - pose proof (hundredths_nonneg m e) as Hh.
    exists (sign_text s), (str_of_Z (hundredths m e / 100)),
      (two_digits (hundredths m e mod 100)).
    cbn [format_2f].
    assert (H100 : 0 <= hundredths m e / 100) by (apply Z.div_pos; lia).
    destruct (str_of_Z_shape _ H100) as [Hd Hne].
    destruct (two_digits_shape (hundredths m e mod 100)) as [Hl Hf].
    { apply Z.mod_pos_bound. lia. }
    repeat split; auto. destruct s; auto.
Qed.

(** ** Outcomes *)

Lemma outcome_inj {A W : Type} (a a' : A) (w w' : W) (l l' : trace) :
  (Ok a, w, l) = (Ok a', w', l') -> a = a' /\ w = w' /\ l = l'.
Proof. intros H. injection H as -> -> ->. auto. Qed.

Lemma failure_inj {A W : Type} (e e' : exn) (w w' : W) (l l' : trace) :
  (@Raise A e, w, l) = (Raise e', w', l') -> e = e' /\ w = w' /\ l = l'.
Proof. intros H. injection H as -> -> ->. auto. Qed.

Lemma print_not_among_calls (text : string) (l : trace) :
  Forall (fun e => is_invoke e = true) l -> ~ In (EvPrint text) l.
Proof.
  intros Hall Hin. rewrite Forall_forall in Hall.
  specialize (Hall _ Hin). discriminate.
Qed.

Section Properties.

Context {P : Platform} {U : Type}.

Lemma perf_counter_finite (k : nat) :
  PyFloat.is_finite (perf_counter_reading k) = true.
Proof. apply (below_is_finite 64), perf_counter_below. Qed.

(** ** The loop *)

Lemma repeat_stmt_succ (n : nat) (body : M U unit) (w : World U) :
  repeat_stmt (S n) body w
  = match body w with
    | (Ok _, w1, l1) =>
        let '(r, w2, l2) := repeat_stmt n body w1 in (r, w2, l1 ++ l2)
    | (Raise e, w1, l1) => (Raise e, w1, l1)
    end.
Proof. reflexivity. Qed.

Lemma call_unfold (f : M U unit) (w : World U) :
  call f w = (fst (fst (f w)), snd (fst (f w)), [EvInvoke (snd (f w))]).
Proof. unfold call. now destruct (f w) as [[r w1] l]. Qed.

(** Every event the loop records is one call; a loop that completes made
    [n] of them, a loop that stops on an exception made between 1 and [n]. *)
Lemma repeat_stmt_calls (f : M U unit) (n : nat) :
  forall w r w' l,
    repeat_stmt n (call f) w = (r, w', l) ->
    Forall (fun e => is_invoke e = true) l
    /\ (forall u, r = Ok u -> List.length l = n)
    /\ (forall e, r = Raise e -> (1 <= List.length l <= n)%nat).
Proof.
  induction n as [|n IH]; intros w r w' l H.
  - cbn in H. inversion H; subst. repeat split; try constructor; try discriminate.
    all: intros; discriminate.
  - rewrite repeat_stmt_succ, call_unfold in H.
    destruct (f w) as [[r1 w1] l1]; cbn [fst snd] in H.
    destruct r1 as [[]|e1].
    + destruct (repeat_stmt n (call f) w1) as [[r2 w2] l2] eqn:E.
      inversion H; subst. destruct (IH _ _ _ _ E) as (Hall & Hok & Herr).
      split; [constructor; [reflexivity | exact Hall] |].
      split.
      * intros u Hu. cbn. f_equal. eauto.
      * intros e He. cbn. destruct (Herr e He). lia.
    + inversion H; subst. split; [repeat constructor |].
      split; [discriminate |]. intros e _. cbn. lia.
Qed.

(** A loop that fails at its [k]-th call, seen from a longer loop. *)
Lemma repeat_stmt_fails (f : M U unit) (k : nat) :
  forall n w e w' l,
    fails_at f k w e w' l -> (k <= n)%nat ->
    repeat_stmt n (call f) w = (Raise e, w', l) /\ invocations l = k.
Proof.
  induction k as [|k IH]; intros n w e w' l (wk & l0 & lk & Hpre & Hk & Hl & Hpos) Hn.
  - lia.
  - destruct n as [|n]; [lia|]. cbn [Nat.pred] in Hpre.
    destruct k as [|k].
    + cbn in Hpre. inversion Hpre; subst. rewrite repeat_stmt_succ, call_unfold, Hk.
      cbn. split; reflexivity.
    + rewrite repeat_stmt_succ, call_unfold in Hpre.
      rewrite repeat_stmt_succ, call_unfold.
      destruct (f w) as [[r1 w1] l1]; cbn [fst snd] in *.
      destruct r1 as [[]|e1]; [|discriminate].
      destruct (repeat_stmt k (call f) w1) as [[r2 w2] l2] eqn:E.
      inversion Hpre; subst.
      destruct (IH n w1 e w' (l2 ++ [EvInvoke lk])) as [Hrun Hcount].
      * exists wk, l2, lk. cbn [Nat.pred]. repeat split; auto. lia.
      * lia.
      * rewrite Hrun. split; [reflexivity |].
        change ((EvInvoke l1 :: l2) ++ [EvInvoke lk])
          with ([EvInvoke l1] ++ (l2 ++ [EvInvoke lk])).
        rewrite invocations_app, Hcount. reflexivity.
Qed.

(** ** The timer, statement by statement *)

Lemma time_hasher_unfold (name : string) (hash_func : M U unit) (repeat : Z)
    (w : World U) :
  let start := perf_counter_reading (clock_reads w) in
  time_hasher name hash_func repeat w
  = match for_range repeat (call hash_func) (tick w) with
    | (Raise e, w2, l) => (Raise e, w2, EvClock start :: l)
    | (Ok _, w2, l) =>
        let end_ := perf_counter_reading (clock_reads w2) in
        match average_ms start end_ repeat with
        | Ok avg_ms =>
            (Ok tt, tick w2,
             EvClock start :: l ++ [EvClock end_; EvPrint (result_line name avg_ms repeat)])
        | Raise e => (Raise e, tick w2, EvClock start :: l ++ [EvClock end_])
        end
    end.
Proof.
  unfold time_hasher, average_ms, bind, perf_counter, lift, print, emit. cbn.
  destruct (for_range repeat (call hash_func) (tick w)) as [[r w2] l].
  destruct r as [[]|e]; [|reflexivity].
  cbn. destruct (truediv _ repeat) as [q|e]; reflexivity.
Qed.

(** ** The closures and their factories *)

Lemma do_hash_run (h : hasher) (w : World U) :
  do_hash h w
  = match primitive_output h with
    | Ok out => (Ok tt, w, [EvHash (algorithm_of h) (hashed_salt h) out])
    | Raise e => (Raise e, w, [])
    end.
Proof.
  destruct h; cbn -[list_byte_of_string]; unfold bind, lift, emit;
    try reflexivity;
    match goal with |- context [match ?r with Ok _ => _ | Raise _ => _ end] =>
      destruct r; reflexivity end.
Qed.

Lemma call_of_draws_nothing (h : hasher) (e : event) :
  call_of h e -> entropy_draws e = 0%nat.
Proof. intros [->|[out ->]]; reflexivity. Qed.

(** Calling a closure any number of times leaves the world as it was and
    records nothing but its own hashes. *)
Lemma repeat_do_hash (h : hasher) (n : nat) (w : World U) :
  exists r l,
    repeat_stmt n (call (do_hash h)) w = (r, w, l)
    /\ Forall (call_of h) l
    /\ trace_entropy_draws l = 0%nat.
Proof.
  induction n as [|n (r & l & Hrun & Hall & Hdraws)].
  - exists (Ok tt), []. repeat split. constructor.
  - rewrite repeat_stmt_succ, call_unfold, do_hash_run.
    destruct (primitive_output h) as [out|e]; cbn [fst snd].
    + rewrite Hrun. eexists _, _. split; [reflexivity |]. split.
      * constructor; [right; now exists out | exact Hall].
      * rewrite trace_entropy_draws_app, Hdraws. reflexivity.
    + eexists _, _. split; [reflexivity |]. split.
      * constructor; [now left | constructor].
      * reflexivity.
Qed.

Lemma gensalt_run (rounds : Z) (w : World U) :
  gensalt rounds w
  = if ((rounds <? 4) || (31 <? rounds))%bool
    then (Raise (ValueError "Invalid rounds"), w, [])
    else
      let random := entropy_bytes (entropy_used w) 16 in
      (Ok (salt_of_randomness (BcryptFactory [] rounds) random),
       consume 16 w, [EvUrandom random]).
Proof.
  unfold gensalt. destruct (_ || _)%bool; reflexivity.
Qed.

Lemma make_bcrypt_hasher_run (password : bytes) (cost : Z) (w : World U) :
  make_bcrypt_hasher password cost w
  = if ((cost <? 4) || (31 <? cost))%bool
    then (Raise (ValueError "Invalid rounds"), w, [])
    else
      let random := entropy_bytes (entropy_used w) 16 in
      (Ok (BcryptHasher password (salt_of_randomness (BcryptFactory password cost) random)),
       consume 16 w, [EvUrandom random]).
Proof.
  unfold make_bcrypt_hasher, bind. rewrite gensalt_run.
  destruct (_ || _)%bool; reflexivity.
Qed.

(** A factory that returns drew sixteen bytes once and captured the salt
    made of them. *)
Lemma construct_run (fac : salted_factory) (w w' : World U) (h : hasher) (l : trace) :
  construct fac w = (Ok h, w', l) ->
  l = [EvUrandom (entropy_bytes (entropy_used w) 16)]
  /\ w' = consume 16 w
  /\ captured_salt h = Some (salt_of_randomness fac (entropy_bytes (entropy_used w) 16)).
Proof.
  destruct fac as [password cost|password n r p|password t m p]; cbn [construct].
  - rewrite make_bcrypt_hasher_run. destruct (_ || _)%bool; [discriminate |].
    intros H. apply outcome_inj in H as (<- & <- & <-). auto.
  - intros H. apply outcome_inj in H as (<- & <- & <-). auto.
  - intros H. apply outcome_inj in H as (<- & <- & <-). auto.
Qed.

Lemma entropy_bytes_length (pos n : nat) : List.length (entropy_bytes pos n) = n.
Proof. unfold entropy_bytes. now rewrite length_map, length_seq. Qed.

Lemma salt_of_randomness_inj (fac : salted_factory) (d1 d2 : bytes) :
  List.length d1 = 16%nat -> List.length d2 = 16%nat ->
  salt_of_randomness fac d1 = salt_of_randomness fac d2 -> d1 = d2.
Proof.
  intros H1 H2 H. destruct fac as [password cost|password n r p|password t m p];
    cbn [salt_of_randomness] in H; [| exact H | exact H].
  do 3 apply app_inv_head in H.
  now apply bcrypt_encode_base64_inj.
Qed.

Lemma average_ms_ok (start end_ : float) (repeat : Z) :
  repeat <> 0 -> PyFloat.is_finite (PyFloat.of_Z repeat) = true ->
  average_ms start end_ repeat
  = Ok (PyFloat.mul (PyFloat.div (PyFloat.sub end_ start) (PyFloat.of_Z repeat))
          PyFloat.thousand).
Proof. intros Hn Hfin. unfold average_ms. now rewrite truediv_ok. Qed.

(** ** The claims *)

(** C1. Each salt-generating factory (bcrypt, scrypt, Argon2id) that
    returns a callable drew its random bytes exactly once, before
    returning, and the callable captured the salt made of them; calling
    the callable any number of times draws no random bytes, leaves the
    world as it was, and does nothing but hash with the captured salt. *)
Theorem salt_generated_once_at_construction
    (fac : salted_factory) (w w' : World U) (h : hasher) (l : trace) :
  construct fac w = (Ok h, w', l) ->
  l = [EvUrandom (entropy_bytes (entropy_used w) 16)]
  /\ trace_entropy_draws l = 1%nat
  /\ entropy_used w' = (entropy_used w + 16)%nat
  /\ captured_salt h
     = Some (salt_of_randomness fac (entropy_bytes (entropy_used w) 16))
  /\ forall (n : nat) (w1 : World U),
       exists r l1,
         repeat_stmt n (call (do_hash h)) w1 = (r, w1, l1)
         /\ Forall (call_of h) l1
         /\ trace_entropy_draws l1 = 0%nat.
Proof.
  intros H. destruct (construct_run _ _ _ _ _ H) as (Hl & Hw & Hsalt).
  split; [exact Hl |]. split; [rewrite Hl; reflexivity |].
  split; [rewrite Hw; reflexivity |]. split; [exact Hsalt |].
  intros n w1. apply repeat_do_hash.
Qed.

(** C10. A call of a constructed callable depends on nothing but the
    variables it captured: in any two worlds it has the same outcome and
    computes the same hash value, it leaves the world unchanged, and when
    the primitive returns a value the call drops it and returns [None]. *)
Theorem do_hash_deterministic (h : hasher) (w1 w2 : World U) :
  exists r l,
    do_hash h w1 = (r, w1, l)
    /\ do_hash h w2 = (r, w2, l)
    /\ match r with
       | Ok none =>
           none = tt
           /\ exists out,
                primitive_output h = Ok out
                /\ l = [EvHash (algorithm_of h) (hashed_salt h) out]
       | Raise e => primitive_output h = Raise e /\ l = []
       end.
Proof.
  rewrite !do_hash_run. destruct (primitive_output h) as [out|e].
  - eexists _, _. repeat split. now exists out.
  - eexists _, _. repeat split.
Qed.

(** C8. Two constructions by the same factory, with the same secret, in
    worlds whose next sixteen random bytes differ: if the first returns a
    callable, it drew exactly those sixteen bytes of its world, the second
    returns a callable too, having drawn the sixteen bytes of its own
    world, and the two captured salts differ. *)
Theorem distinct_randomness_distinct_salts
    (fac : salted_factory) (w1 w2 w1' : World U) (h1 : hasher) (l1 : trace) :
  construct fac w1 = (Ok h1, w1', l1) ->
  entropy_bytes (entropy_used w1) 16 <> entropy_bytes (entropy_used w2) 16 ->
  l1 = [EvUrandom (entropy_bytes (entropy_used w1) 16)]
  /\ w1' = consume 16 w1
  /\ exists h2,
       construct fac w2
       = (Ok h2, consume 16 w2, [EvUrandom (entropy_bytes (entropy_used w2) 16)])
       /\ captured_salt h1 <> captured_salt h2.
Proof.
  intros H1 Hd.
  destruct (construct_run _ _ _ _ _ H1) as (Hl1 & Hw1 & Hs1).
  split; [exact Hl1 |]. split; [exact Hw1 |].
  assert (H2 : exists h2 w2' l2, construct fac w2 = (Ok h2, w2', l2)).
  { destruct fac as [password cost|password n r p|password t m p];
      cbn [construct] in *; [| eexists _, _, _; reflexivity ..].
    rewrite make_bcrypt_hasher_run in *.
    destruct (_ || _)%bool; [discriminate H1 |]. eexists _, _, _; reflexivity. }
  destruct H2 as (h2 & w2' & l2 & H2).
  destruct (construct_run _ _ _ _ _ H2) as (Hl2 & Hw2 & Hs2).
  exists h2. split; [rewrite H2, Hl2, Hw2; reflexivity |].
  intros Heq. apply Hd, (salt_of_randomness_inj fac); try apply entropy_bytes_length.
  congruence.
Qed.

(** C9. With [repeat = 0] the timer makes no call of [hash_func] and then
    raises the division-by-zero error of the unguarded division. *)
Theorem zero_repeat_divides_by_zero
    (name : string) (hash_func : M U unit) (w : World U) :
  let start := perf_counter_reading (clock_reads w) in
  let end_ := perf_counter_reading (S (clock_reads w)) in
  time_hasher name hash_func 0 w
  = (Raise (ZeroDivisionError "float division by zero"), tick (tick w),
     [EvClock start; EvClock end_])
  /\ invocations [EvClock start; EvClock end_] = 0%nat.
Proof.
  split; [| reflexivity]. rewrite time_hasher_unfold. reflexivity.
Qed.

(** C2 (amended). For a count [repeat >= 1] that converts to a float,
    when no call fails: the timer reads the clock, calls [hash_func]
    exactly [repeat] times and nothing else in between, reads the clock
    again, and prints the result line for
    [(end - start) / repeat * 1000.0]. *)
Theorem time_hasher_reports_mean
    (name : string) (hash_func : M U unit) (repeat : Z) (w w2 : World U) (l : trace) :
  1 <= repeat ->
  PyFloat.is_finite (PyFloat.of_Z repeat) = true ->
  for_range repeat (call hash_func) (tick w) = (Ok tt, w2, l) ->
  let start := perf_counter_reading (clock_reads w) in
  let end_ := perf_counter_reading (clock_reads w2) in
  let mean_latency_ms :=
    PyFloat.mul (PyFloat.div (PyFloat.sub end_ start) (PyFloat.of_Z repeat))
      PyFloat.thousand in
  time_hasher name hash_func repeat w
  = (Ok tt, tick w2,
     EvClock start :: l
     ++ [EvClock end_; EvPrint (result_line name mean_latency_ms repeat)])
  /\ List.length l = Z.to_nat repeat
  /\ Forall (fun e => is_invoke e = true) l
  /\ invocations l = Z.to_nat repeat.
Proof.
  intros Hpos Hfin Hloop start end_ mean_latency_ms.
  destruct (repeat_stmt_calls _ _ _ _ _ _ Hloop) as (Hall & Hlen & _).
  specialize (Hlen tt eq_refl).
  split; [| split; [exact Hlen | split; [exact Hall |]]].
  - rewrite time_hasher_unfold, Hloop. cbv zeta.
    rewrite average_ms_ok by (try lia; exact Hfin). reflexivity.
  - rewrite invocations_all by exact Hall. exact Hlen.
Qed.

(** C4 (amended). With [repeat <= 0] the timer makes no call and never
    raises [InvalidArgument]: for [repeat = 0] the division raises
    [ZeroDivisionError]; for a negative [repeat] (one that converts to a
    float) nothing is raised and the result line for
    [(end - start) / repeat * 1000.0] is printed. *)
Theorem nonpositive_repeat_is_not_rejected
    (name : string) (hash_func : M U unit) (repeat : Z) (w : World U) :
  repeat <= 0 ->
  let start := perf_counter_reading (clock_reads w) in
  let end_ := perf_counter_reading (S (clock_reads w)) in
  exists r out,
    time_hasher name hash_func repeat w
    = (r, tick (tick w), [EvClock start; EvClock end_] ++ out)
    /\ invocations ([EvClock start; EvClock end_] ++ out) = 0%nat
    /\ r <> Raise InvalidArgument
    /\ (repeat = 0 ->
        r = Raise (ZeroDivisionError "float division by zero") /\ out = [])
    /\ (repeat < 0 -> PyFloat.is_finite (PyFloat.of_Z repeat) = true ->
        r = Ok tt
        /\ out = [EvPrint (result_line name
                    (PyFloat.mul
                       (PyFloat.div (PyFloat.sub end_ start) (PyFloat.of_Z repeat))
                       PyFloat.thousand) repeat)]).
Proof.
  intros Hle start end_.
  assert (Hrun : for_range repeat (call hash_func) (tick w) = (Ok tt, tick w, [])).
  { unfold for_range. replace (Z.to_nat repeat) with 0%nat by lia. reflexivity. }
  rewrite time_hasher_unfold, Hrun. cbv zeta.
  change (perf_counter_reading (clock_reads (tick w))) with end_.
  fold start.
  destruct (Z.eq_dec repeat 0) as [-> | Hnz].
  - exists (Raise (ZeroDivisionError "float division by zero")), [].
    repeat split; try discriminate; try lia.
  - destruct (PyFloat.is_finite (PyFloat.of_Z repeat)) eqn:Hfin.
    + rewrite average_ms_ok by assumption.
      eexists (Ok tt), [_]. repeat split; try discriminate; try lia.
    + unfold average_ms. rewrite truediv_overflow by exact Hfin.
      eexists (Raise _), []. repeat split; try discriminate; try lia.
Qed.

(** C5 (amended). When the [k]-th of the requested calls is the first to
    fail, the timer stops there: [hash_func] was called exactly [k] times,
    the exception it raised leaves the timer unchanged (no wrapper, no
    iteration tag), and no mean is computed or printed. *)
Theorem failure_propagates_unchanged
    (name : string) (hash_func : M U unit) (repeat : Z) (k : nat)
    (w w' : World U) (e : exn) (l : trace) :
  (k <= Z.to_nat repeat)%nat ->
  fails_at hash_func k (tick w) e w' l ->
  let start := perf_counter_reading (clock_reads w) in
  time_hasher name hash_func repeat w = (Raise e, w', EvClock start :: l)
  /\ invocations (EvClock start :: l) = k
  /\ printed (EvClock start :: l) = []
  /\ filter is_clock (EvClock start :: l) = [EvClock start].
Proof.
  intros Hk Hfail start.
  destruct (repeat_stmt_fails _ _ _ _ _ _ _ Hfail Hk) as [Hrun Hcount].
  destruct (repeat_stmt_calls _ _ _ _ _ _ Hrun) as (Hall & _ & _).
  split; [| split; [| split]].
  - rewrite time_hasher_unfold. unfold for_range. rewrite Hrun. reflexivity.
  - exact Hcount.
  - cbn [printed]. now apply printed_invokes.
  - cbn [filter is_clock]. f_equal.
    clear -Hall. induction Hall as [|x l Hx _ IH]; [reflexivity |].
    destruct x; try discriminate. exact IH.
Qed.

(** C7. For [repeat >= 1], when no call fails and the second reading of
    the clock is not below the first, the mean latency the timer prints is
    [>= 0]; the only runs that print none are those whose count is beyond
    the range of a float. *)
Theorem mean_latency_nonneg
    (name : string) (hash_func : M U unit) (repeat : Z) (w w2 : World U) (l : trace) :
  1 <= repeat ->
  for_range repeat (call hash_func) (tick w) = (Ok tt, w2, l) ->
  let start := perf_counter_reading (clock_reads w) in
  let end_ := perf_counter_reading (clock_reads w2) in
  PyFloat.leb start end_ = true ->
  match average_ms start end_ repeat with
  | Ok avg_ms =>
      time_hasher name hash_func repeat w
      = (Ok tt, tick w2,
         EvClock start :: l ++ [EvClock end_; EvPrint (result_line name avg_ms repeat)])
      /\ PyFloat.nonneg avg_ms = true
  | Raise _ => PyFloat.is_finite (PyFloat.of_Z repeat) = false
  end.
Proof.
  intros Hpos Hloop start end_ Hle.
  destruct (PyFloat.is_finite (PyFloat.of_Z repeat)) eqn:Hfin.
  - pose proof (average_ms_ok start end_ repeat ltac:(lia) Hfin) as Havg.
    rewrite Havg. split.
    + rewrite time_hasher_unfold, Hloop. cbv zeta. fold start end_.
      rewrite Havg. reflexivity.
    + apply mul_thousand_nonneg, div_nonneg.
      * apply sub_nonneg;
          [ apply perf_counter_well_formed | apply perf_counter_finite
          | apply perf_counter_well_formed | apply perf_counter_finite | exact Hle ].
      * pose proof (of_Z_signed_nonzero repeat ltac:(lia)) as Hs.
        replace (repeat <? 0) with false in Hs by (symmetry; apply Z.ltb_ge; lia).
        exact Hs.
      * exact Hfin.
  - unfold average_ms. now rewrite truediv_overflow.
Qed.

(** ** The driver *)

Lemma bind_print_run {A : Type} (text : string) (k : unit -> M U A)
    (w w' : World U) (r : Res A) (l : trace) :
  k tt w = (r, w', l) ->
  bind (print text) k w = (r, w', EvPrint text :: l).
Proof. intros H. unfold bind, print, emit. now rewrite H. Qed.

Lemma bind_failure {A B : Type} (m : M U A) (k : A -> M U B)
    (w w' : World U) (e : exn) (l : trace) :
  m w = (Raise e, w', l) -> bind m k w = (Raise e, w', l).
Proof. intros H. unfold bind. now rewrite H. Qed.

(** The bcrypt factory fails exactly on a cost that [bcrypt.gensalt]
    rejects, before anything is drawn. *)
Lemma make_bcrypt_hasher_failure (password : bytes) (cost : Z)
    (w w' : World U) (e : exn) (l : trace) :
  make_bcrypt_hasher password cost w = (Raise e, w', l) ->
  e = ValueError "Invalid rounds" /\ w' = w /\ l = []
  /\ (cost < 4 \/ 31 < cost).
Proof.
  rewrite make_bcrypt_hasher_run.
  destruct (cost <? 4) eqn:E1; cbn [orb].
  - intros H. apply failure_inj in H as (<- & <- & <-).
    apply Z.ltb_lt in E1. auto.
  - destruct (31 <? cost) eqn:E2.
    + intros H. apply failure_inj in H as (<- & <- & <-).
      apply Z.ltb_lt in E2. auto.
    + discriminate.
Qed.

(** C3 (amended). When the bcrypt factory fails at construction (the only
    factory that can: [bcrypt.gensalt] rejects a cost outside 4..31), the
    driver does not recover: the exception leaves [main] right there,
    after the banner; no callable is timed, no result line is printed for
    any algorithm, and the exit status is 1. *)
Theorem factory_failure_aborts_main
    (c : Configuration) (w w' : World U) (e : exn) (l : trace) :
  make_bcrypt_hasher (PASSWORD c) (BCRYPT_COST c) w = (Raise e, w', l) ->
  main c w = (Raise e, w, map EvPrint (banner c))
  /\ exit_status (fst (fst (main c w))) = 1
  /\ printed (snd (main c w)) = banner c
  /\ invocations (snd (main c w)) = 0%nat
  /\ filter is_clock (snd (main c w)) = []
  /\ e = ValueError "Invalid rounds"
  /\ (BCRYPT_COST c < 4 \/ 31 < BCRYPT_COST c).
Proof.
  intros H.
  destruct (make_bcrypt_hasher_failure _ _ _ _ _ _ H) as (He & Hw & Hl & Hcost).
  subst w' l.
  assert (Hmain : main c w = (Raise e, w, map EvPrint (banner c))).
  { unfold main, banner. cbn [map].
    do 9 apply bind_print_run.
    unfold make_sha256_hasher at 1. unfold bind at 1, ret at 1.
    rewrite (bind_failure _ _ _ _ _ _ H). reflexivity. }
  rewrite Hmain. cbn [fst snd exit_status].
  repeat split; auto.
Qed.

(** ** The result line *)

(** C6. Every line the timer prints is the algorithm name padded on the
    right with spaces to at least 10 characters, two spaces, the mean
    latency it computed from its two readings, padded on the left with
    spaces to at least 8 characters, then
    [" ms per hash (over N runs)"] with the repetition count; the mean
    is written with an optional sign, its integer digits, a point and
    exactly two fractional digits. *)
Theorem result_line_layout
    (name : string) (hash_func : M U unit) (repeat : Z)
    (w w' : World U) (r : Res unit) (l : trace) (text : string) :
  time_hasher name hash_func repeat w = (r, w', l) ->
  In (EvPrint text) l ->
  exists avg_ms,
    average_ms (perf_counter_reading (clock_reads w))
      (perf_counter_reading (Nat.pred (clock_reads w'))) repeat = Ok avg_ms
    /\ text = (ljust 10 name ++ "  " ++ rjust 8 (format_2f avg_ms)
               ++ " ms per hash (over " ++ str_of_Z repeat ++ " runs)")%string
    /\ ljust 10 name = (name ++ spaces (10 - String.length name))%string
    /\ String.length (ljust 10 name) = Nat.max 10 (String.length name)
    /\ rjust 8 (format_2f avg_ms)
       = (spaces (8 - String.length (format_2f avg_ms)) ++ format_2f avg_ms)%string
    /\ String.length (rjust 8 (format_2f avg_ms))
       = Nat.max 8 (String.length (format_2f avg_ms))
    /\ exists sign int_part frac_part,
         format_2f avg_ms = (sign ++ int_part ++ "." ++ frac_part)%string
         /\ (sign = EmptyString \/ sign = "-"%string)
         /\ int_part <> EmptyString /\ all_digits int_part = true
         /\ String.length frac_part = 2%nat /\ all_digits frac_part = true.
Proof.
  intros Hrun Hin. rewrite time_hasher_unfold in Hrun. cbv zeta in Hrun.
  destruct (for_range repeat (call hash_func) (tick w)) as [[r1 w2] l1] eqn:Hloop.
  destruct (repeat_stmt_calls _ _ _ _ _ _ Hloop) as (Hall & _ & _).
  assert (Hno : ~ In (EvPrint text) l1) by now apply print_not_among_calls.
  destruct r1 as [[]|e1].
  - destruct (average_ms _ _ repeat) as [avg_ms|e2] eqn:Havg.
    + exists avg_ms.
      assert (Hw : w' = tick w2) by congruence.
      split; [rewrite Hw; exact Havg |].
      assert (Htext : text = result_line name avg_ms repeat).
      { assert (Hl : l = EvClock (perf_counter_reading (clock_reads w))
                         :: l1 ++ [EvClock (perf_counter_reading (clock_reads w2));
                                   EvPrint (result_line name avg_ms repeat)])
          by congruence.
        rewrite Hl in Hin. destruct Hin as [Hin|Hin]; [discriminate |].
        apply in_app_or in Hin as [Hin|Hin]; [contradiction |].
        destruct Hin as [Hin|[Hin|[]]]; [discriminate | congruence]. }
      split; [exact Htext |].
      split; [reflexivity |]. split; [apply ljust_length |].
      split; [reflexivity |]. split; [apply rjust_length |].
      apply format_2f_finite.
      apply (average_ms_finite _ _ _ _ (perf_counter_below _) (perf_counter_below _) Havg).
    + exfalso.
      assert (Hl : l = EvClock (perf_counter_reading (clock_reads w))
                       :: l1 ++ [EvClock (perf_counter_reading (clock_reads w2))])
        by congruence.
      rewrite Hl in Hin. destruct Hin as [Hin|Hin]; [discriminate |].
      apply in_app_or in Hin as [Hin|Hin]; [contradiction |].
      destruct Hin as [Hin|[]]; discriminate.
  - exfalso.
    assert (Hl : l = EvClock (perf_counter_reading (clock_reads w)) :: l1) by congruence.
    rewrite Hl in Hin. destruct Hin as [Hin|Hin]; [discriminate | contradiction].
Qed.

End Properties.

(** * The rest of the script: how the parts compose *)

Lemma clock_events_of_calls (l : trace) :
  Forall (fun e => is_invoke e = true) l -> filter is_clock l = [].
Proof.
  induction 1 as [|x l Hx _ IH]; [reflexivity |].
  destruct x; try discriminate. exact IH.
Qed.

Lemma clock_events_app (l1 l2 : trace) :
  filter is_clock (l1 ++ l2) = filter is_clock l1 ++ filter is_clock l2.
Proof. apply filter_app. Qed.

(** The random bytes drawn at the top level of a trace. *)
Fixpoint random_draws (l : trace) : list bytes :=
  match l with
  | [] => []
  | EvUrandom d :: r => d :: random_draws r
  | _ :: r => random_draws r
  end.

Lemma random_draws_app (l1 l2 : trace) :
  random_draws (l1 ++ l2) = random_draws l1 ++ random_draws l2.
Proof.
  induction l1 as [|x l1 IH]; [reflexivity |]. destruct x; cbn; now rewrite IH.
Qed.

(** The algorithm and the salt of every hash computed in a trace, nested
    events included, in the order of the run. *)
Fixpoint hashes_of (e : event) : list (algorithm * bytes) :=
  match e with
  | EvHash alg salt _ => [(alg, salt)]
  | EvInvoke inner => flat_map hashes_of inner
  | _ => []
  end.

Definition hashed_salts (l : trace) : list (algorithm * bytes) :=
  flat_map hashes_of l.

Lemma hashed_salts_app (l1 l2 : trace) :
  hashed_salts (l1 ++ l2) = hashed_salts l1 ++ hashed_salts l2.
Proof. apply flat_map_app. Qed.

Lemma hashed_salts_prints (lines : list string) : hashed_salts (map EvPrint lines) = [].
Proof. induction lines as [|x lines IH]; [reflexivity | exact IH]. Qed.

Lemma hashed_salts_draws (ds : list bytes) : hashed_salts (map EvUrandom ds) = [].
Proof. induction ds as [|x ds IH]; [reflexivity | exact IH]. Qed.

Section Coverage.

Context {P : Platform} {U : Type}.

(** ** The timer, whatever the callable *)

(** X1. Whatever the callable does and however the run ends, the timer
    never calls it more than [repeat] times (never at all for
    [repeat <= 0]); when the timer returns it called it exactly [repeat]
    times. *)
Theorem time_hasher_call_bound
    (name : string) (hash_func : M U unit) (repeat : Z) (w : World U) :
  let run := time_hasher name hash_func repeat w in
  (invocations (snd run) <= Z.to_nat repeat)%nat
  /\ (fst (fst run) = Ok tt -> invocations (snd run) = Z.to_nat repeat).
Proof.
  cbv zeta. rewrite time_hasher_unfold. cbv zeta.
  destruct (for_range repeat (call hash_func) (tick w)) as [[r1 w2] l1] eqn:Hloop.
  destruct (repeat_stmt_calls _ _ _ _ _ _ Hloop) as (Hall & Hok & Herr).
  pose proof (invocations_all _ Hall) as Hinv.
  destruct r1 as [[]|e1].
  - specialize (Hok tt eq_refl).
    destruct (average_ms _ _ repeat) as [avg_ms|e2]; cbn [fst snd];
      change (EvClock ?s :: l1 ++ ?t) with ([EvClock s] ++ l1 ++ t);
      rewrite !invocations_app, Hinv, Hok; cbn; split; intros; lia.
  - destruct (Herr e1 eq_refl) as [_ Hle]. cbn [fst snd].
    change (EvClock ?s :: l1) with ([EvClock s] ++ l1).
    rewrite invocations_app, Hinv. cbn. split; [lia | discriminate].
Qed.

(** X2. The timer prints a result line exactly when it returns: a run
    that ends in an exception (of the callable or of the division) prints
    nothing, a run that returns prints one line, as its last event. *)
Theorem time_hasher_prints_iff_returns
    (name : string) (hash_func : M U unit) (repeat : Z) (w : World U) :
  let run := time_hasher name hash_func repeat w in
  match fst (fst run) with
  | Ok _ =>
      exists avg_ms rest,
        snd run = rest ++ [EvPrint (result_line name avg_ms repeat)]
        /\ printed rest = []
  | Raise _ => printed (snd run) = []
  end.
Proof.
  cbv zeta. rewrite time_hasher_unfold. cbv zeta.
  destruct (for_range repeat (call hash_func) (tick w)) as [[r1 w2] l1] eqn:Hloop.
  destruct (repeat_stmt_calls _ _ _ _ _ _ Hloop) as (Hall & _ & _).
  pose proof (printed_invokes _ Hall) as Hnone.
  destruct r1 as [[]|e1].
  - destruct (average_ms _ _ repeat) as [avg_ms|e2]; cbn [fst snd].
    + exists avg_ms, (EvClock (perf_counter_reading (clock_reads w))
                      :: l1 ++ [EvClock (perf_counter_reading (clock_reads w2))]).
      split.
      * rewrite <- app_comm_cons, <- app_assoc. reflexivity.
      * cbn [printed]. rewrite printed_app, Hnone. reflexivity.
    + cbn [printed]. rewrite printed_app, Hnone. reflexivity.
  - cbn [fst snd printed]. exact Hnone.
Qed.

(** ** The timer on a constructed callable *)

Lemma repeat_do_hash_ok (h : hasher) (out : bytes) (n : nat) (w : World U) :
  primitive_output h = Ok out ->
  repeat_stmt n (call (do_hash h)) w
  = (Ok tt, w, List.repeat (EvInvoke [EvHash (algorithm_of h) (hashed_salt h) out]) n).
Proof.
  intros Hout. induction n as [|n IH]; [reflexivity |].
  rewrite repeat_stmt_succ, call_unfold, do_hash_run, Hout. cbn [fst snd].
  rewrite IH. reflexivity.
Qed.

Lemma repeat_do_hash_failure (h : hasher) (e : exn) (n : nat) (w : World U) :
  primitive_output h = Raise e ->
  repeat_stmt (S n) (call (do_hash h)) w = (Raise e, w, [EvInvoke []]).
Proof.
  intros Hout. rewrite repeat_stmt_succ, call_unfold, do_hash_run, Hout. reflexivity.
Qed.

(** The mean the timer computes when the division goes through. *)
Definition mean_ms (start end_ : float) (repeat : Z) : float :=
  PyFloat.mul (PyFloat.div (PyFloat.sub end_ start) (PyFloat.of_Z repeat))
    PyFloat.thousand.

(** The events of one completed timing of the closure [h], whose primitive
    returns [out]. *)
Definition timed (name : string) (h : hasher) (out : bytes) (repeat : Z)
    (w : World U) : trace :=
  let start := perf_counter_reading (clock_reads w) in
  let end_ := perf_counter_reading (S (clock_reads w)) in
  EvClock start
  :: List.repeat (EvInvoke [EvHash (algorithm_of h) (hashed_salt h) out]) (Z.to_nat repeat)
  ++ [EvClock end_; EvPrint (result_line name (mean_ms start end_ repeat) repeat)].

Lemma time_hasher_do_hash_ok (name : string) (h : hasher) (out : bytes)
    (repeat : Z) (w : World U) :
  primitive_output h = Ok out ->
  repeat <> 0 -> PyFloat.is_finite (PyFloat.of_Z repeat) = true ->
  time_hasher name (do_hash h) repeat w = (Ok tt, tick (tick w), timed name h out repeat w).
Proof.
  intros Hout Hnz Hfin. rewrite time_hasher_unfold. unfold for_range.
  rewrite (repeat_do_hash_ok h out) by exact Hout. cbv zeta.
  rewrite average_ms_ok by assumption. reflexivity.
Qed.

Lemma time_hasher_do_hash_failure (name : string) (h : hasher) (e : exn)
    (repeat : Z) (w : World U) :
  primitive_output h = Raise e ->
  1 <= repeat ->
  time_hasher name (do_hash h) repeat w
  = (Raise e, tick w, [EvClock (perf_counter_reading (clock_reads w)); EvInvoke []]).
Proof.
  intros Hout Hpos. rewrite time_hasher_unfold. unfold for_range.
  destruct (Z.to_nat repeat) as [|n] eqn:En; [lia |].
  rewrite (repeat_do_hash_failure h e) by exact Hout. reflexivity.
Qed.

Lemma time_hasher_do_hash_frame (name : string) (h : hasher) (repeat : Z) (w : World U) :
  exists r w' l,
    time_hasher name (do_hash h) repeat w = (r, w', l)
    /\ (w' = tick w \/ w' = tick (tick w))
    /\ trace_entropy_draws l = 0%nat
    /\ random_draws l = [].
Proof.
  rewrite time_hasher_unfold. cbv zeta. unfold for_range.
  destruct (repeat_do_hash h (Z.to_nat repeat) (tick w)) as (r & l & Hrun & Hcalls & Hdraws).
  assert (Hnone : random_draws l = []).
  { clear -Hcalls. induction Hcalls as [|x l Hx _ IH]; [reflexivity |].
    destruct Hx as [-> | [out ->]]; exact IH. }
  rewrite Hrun. destruct r as [[]|e].
  - destruct (average_ms _ _ repeat) as [avg_ms|e2]; eexists _, _, _;
      (split; [reflexivity |]); (split; [now right |]);
      change (EvClock ?s :: l ++ ?t) with ([EvClock s] ++ l ++ t);
      rewrite !trace_entropy_draws_app, !random_draws_app, Hdraws, Hnone; split; reflexivity.
  - eexists _, _, _. split; [reflexivity |]. split; [now left |].
    change (EvClock ?s :: l) with ([EvClock s] ++ l).
    rewrite trace_entropy_draws_app, random_draws_app, Hdraws, Hnone. split; reflexivity.
Qed.

(** X3. A callable whose primitive rejects the captured parameters fails
    on its first call: whatever count [>= 1] is requested, the timer makes
    exactly one call, takes no second reading of the clock, prints nothing
    and ends in the primitive's own exception. *)
Theorem closure_failure_is_immediate
    (name : string) (h : hasher) (e : exn) (repeat : Z) (w : World U) :
  primitive_output h = Raise e ->
  1 <= repeat ->
  exists l,
    time_hasher name (do_hash h) repeat w = (Raise e, tick w, l)
    /\ invocations l = 1%nat
    /\ List.length (filter is_clock l) = 1%nat
    /\ printed l = [].
Proof.
  intros Hout Hpos. eexists. split.
  - apply time_hasher_do_hash_failure; assumption.
  - repeat split.
Qed.

(** X4. Timing a constructed callable never consumes randomness and never
    touches the caller's state: whatever the count and however the run
    ends, the only change to the world is one or two readings of the
    clock, and no event of the run, nested ones included, draws random
    bytes. *)
Theorem closure_timing_frame
    (name : string) (h : hasher) (repeat : Z) (w : World U) :
  let run := time_hasher name (do_hash h) repeat w in
  (snd (fst run) = tick w \/ snd (fst run) = tick (tick w))
  /\ entropy_used (snd (fst run)) = entropy_used w
  /\ user (snd (fst run)) = user w
  /\ trace_entropy_draws (snd run) = 0%nat.
Proof.
  cbv zeta.
  destruct (time_hasher_do_hash_frame name h repeat w)
    as (r & w' & l & Hrun & Hw & Hdraws & _).
  rewrite Hrun. cbn [fst snd]. split; [exact Hw |].
  destruct Hw as [-> | ->]; repeat split; assumption.
Qed.

(** ** The driver *)

(** The callables [main] builds in the world [w]: the salted ones capture
    three consecutive sixteen-byte windows of the entropy source. *)
Definition main_sha256_hasher (c : Configuration) : hasher :=
  Sha256Hasher (PASSWORD c).

Definition main_bcrypt_hasher (c : Configuration) (w : World U) : hasher :=
  BcryptHasher (PASSWORD c)
    (salt_of_randomness (BcryptFactory (PASSWORD c) (BCRYPT_COST c))
       (entropy_bytes (entropy_used w) 16)).

Definition main_scrypt_hasher (c : Configuration) (w : World U) : hasher :=
  ScryptHasher (PASSWORD c) (entropy_bytes (entropy_used w + 16) 16)
    (SCRYPT_N c) (SCRYPT_R c) (SCRYPT_P c).

Definition main_argon2id_hasher (c : Configuration) (w : World U) : hasher :=
  Argon2idHasher (PASSWORD c) (entropy_bytes (entropy_used w + 32) 16)
    (ARGON2_TIME_COST c) (ARGON2_MEMORY_COST c) (ARGON2_PARALLELISM c).

(** The random bytes [main] draws, in order. *)
Definition salts_drawn (w : World U) : list bytes :=
  [ entropy_bytes (entropy_used w) 16;
    entropy_bytes (entropy_used w + 16) 16;
    entropy_bytes (entropy_used w + 32) 16 ].

(** The last four statements of [main]. *)
Definition timing_stage (c : Configuration) (sha256_hasher bcrypt_hasher
    scrypt_hasher argon2id_hasher : hasher) : M U unit :=
  time_hasher "SHA-256" (do_hash sha256_hasher) (REPEAT c) ;;
  time_hasher "bcrypt" (do_hash bcrypt_hasher) (REPEAT c) ;;
  time_hasher "scrypt" (do_hash scrypt_hasher) (REPEAT c) ;;
  time_hasher "Argon2id" (do_hash argon2id_hasher) (REPEAT c).

Definition heading : string := ("Average time per hash:" ++ newline)%string.

Lemma bind_ok_run {A B : Type} (m : M U A) (k : A -> M U B) (w w1 w2 : World U)
    (a : A) (r : Res B) (l1 l2 : trace) :
  m w = (Ok a, w1, l1) -> k a w1 = (r, w2, l2) ->
  bind m k w = (r, w2, l1 ++ l2).
Proof. intros Hm Hk. unfold bind. now rewrite Hm, Hk. Qed.

(** [main] up to its timing stage, for a cost that [bcrypt.gensalt]
    accepts. *)
Lemma main_run (c : Configuration) (w w' : World U) (r : Res unit) (l : trace) :
  ((BCRYPT_COST c <? 4) || (31 <? BCRYPT_COST c))%bool = false ->
  timing_stage c (main_sha256_hasher c) (main_bcrypt_hasher c w)
    (main_scrypt_hasher c w) (main_argon2id_hasher c w) (consume 48 w)
  = (r, w', l) ->
  main c w
  = (r, w',
     map EvPrint (banner c) ++ map EvUrandom (salts_drawn w) ++ EvPrint heading :: l).
Proof.
  intros Hcost Hstage. unfold main, banner. cbn [map app].
  do 9 apply bind_print_run.
  apply (bind_ok_run _ _ _ w _ (Sha256Hasher (PASSWORD c)) _ [] _ eq_refl).
  assert (Hb : make_bcrypt_hasher (PASSWORD c) (BCRYPT_COST c) w
               = (Ok (main_bcrypt_hasher c w), consume 16 w,
                  [EvUrandom (entropy_bytes (entropy_used w) 16)]))
    by (rewrite make_bcrypt_hasher_run, Hcost; reflexivity).
  apply (bind_ok_run _ _ _ _ _ _ _ _ _ Hb).
  assert (Hs : make_scrypt_hasher (PASSWORD c) (SCRYPT_N c) (SCRYPT_R c) (SCRYPT_P c)
                 (consume 16 w)
               = (Ok (main_scrypt_hasher c w), consume 16 (consume 16 w),
                  [EvUrandom (entropy_bytes (entropy_used w + 16) 16)]))
    by reflexivity.
  apply (bind_ok_run _ _ _ _ _ _ _ _ _ Hs).
  assert (Ha : make_argon2id_hasher (PASSWORD c) (ARGON2_TIME_COST c)
                 (ARGON2_MEMORY_COST c) (ARGON2_PARALLELISM c)
                 (consume 16 (consume 16 w))
               = (Ok (main_argon2id_hasher c w), consume 48 w,
                  [EvUrandom (entropy_bytes (entropy_used w + 32) 16)])).
  { unfold make_argon2id_hasher, bind, urandom, ret, main_argon2id_hasher, consume.
    cbn [clock_reads entropy_used user].
    replace (entropy_used w + 16 + 16)%nat with (entropy_used w + 32)%nat by lia.
    replace (entropy_used w + 32 + 16)%nat with (entropy_used w + 48)%nat by lia.
    reflexivity. }
  apply (bind_ok_run _ _ _ _ _ _ _ _ _ Ha).
  apply bind_print_run. exact Hstage.
Qed.

Lemma printed_timed (name : string) (h : hasher) (out : bytes) (repeat : Z)
    (w : World U) :
  printed (timed name h out repeat w)
  = [result_line name
       (mean_ms (perf_counter_reading (clock_reads w))
          (perf_counter_reading (S (clock_reads w))) repeat) repeat].
Proof.
  unfold timed. cbn [printed]. rewrite printed_app, printed_invokes; [reflexivity |].
  apply Forall_forall. intros x Hx. apply repeat_spec in Hx. now subst x.
Qed.

Lemma invocations_timed (name : string) (h : hasher) (out : bytes) (repeat : Z)
    (w : World U) :
  invocations (timed name h out repeat w) = Z.to_nat repeat.
Proof.
  unfold timed.
  change (EvClock ?s :: ?l ++ ?t) with ([EvClock s] ++ l ++ t).
  rewrite !invocations_app, (invocations_all (List.repeat _ _)), repeat_length;
    [cbn; lia |].
  apply Forall_forall. intros x Hx. apply repeat_spec in Hx. now subst x.
Qed.

Lemma printed_prints (lines : list string) : printed (map EvPrint lines) = lines.
Proof. induction lines as [|x lines IH]; [reflexivity |]. cbn. now rewrite IH. Qed.

Lemma invocations_prints (lines : list string) : invocations (map EvPrint lines) = 0%nat.
Proof. induction lines as [|x lines IH]; [reflexivity | exact IH]. Qed.

Lemma clock_events_prints (lines : list string) : filter is_clock (map EvPrint lines) = [].
Proof. induction lines as [|x lines IH]; [reflexivity | exact IH]. Qed.

Lemma printed_draws (ds : list bytes) : printed (map EvUrandom ds) = [].
Proof. induction ds as [|x ds IH]; [reflexivity | exact IH]. Qed.

Lemma invocations_draws (ds : list bytes) : invocations (map EvUrandom ds) = 0%nat.
Proof. induction ds as [|x ds IH]; [reflexivity | exact IH]. Qed.

Lemma random_draws_prints (lines : list string) : random_draws (map EvPrint lines) = [].
Proof. induction lines as [|x lines IH]; [reflexivity | exact IH]. Qed.

Lemma random_draws_draws (ds : list bytes) : random_draws (map EvUrandom ds) = ds.
Proof. induction ds as [|x ds IH]; [reflexivity |]. cbn. now rewrite IH. Qed.

(** The result line of the timing that starts with the [i]-th reading
    after those taken before [main]. *)
Definition main_line (c : Configuration) (w : World U) (i : nat) (name : string) : string :=
  result_line name
    (mean_ms (perf_counter_reading (i + clock_reads w))
       (perf_counter_reading (S (i + clock_reads w))) (REPEAT c))
    (REPEAT c).

Definition main_lines (c : Configuration) (w : World U) : list string :=
  [ main_line c w 0 "SHA-256"; main_line c w 2 "bcrypt";
    main_line c w 4 "scrypt"; main_line c w 6 "Argon2id" ].

(** The timing stage stops at the first callable whose primitive fails. *)
Lemma timing_stage_run (c : Configuration) (w : World U) (hb hs ha : hasher) :
  1 <= REPEAT c -> PyFloat.is_finite (PyFloat.of_Z (REPEAT c)) = true ->
  let R := REPEAT c in
  let sha := main_sha256_hasher c in
  let digest := list_byte_of_string (sha256_hexdigest (PASSWORD c)) in
  let w2 := tick (tick w) in
  let w4 := tick (tick w2) in
  let w6 := tick (tick w4) in
  let t1 := timed "SHA-256" sha digest R w in
  timing_stage c sha hb hs ha w
  = match primitive_output hb with
    | Raise e => (Raise e, tick w2, t1 ++ [EvClock (perf_counter_reading (clock_reads w2)); EvInvoke []])
    | Ok ob =>
        let t2 := timed "bcrypt" hb ob R w2 in
        match primitive_output hs with
        | Raise e =>
            (Raise e, tick w4,
             t1 ++ t2 ++ [EvClock (perf_counter_reading (clock_reads w4)); EvInvoke []])
        | Ok os =>
            let t3 := timed "scrypt" hs os R w4 in
            match primitive_output ha with
            | Raise e =>
                (Raise e, tick w6,
                 t1 ++ t2 ++ t3
                 ++ [EvClock (perf_counter_reading (clock_reads w6)); EvInvoke []])
            | Ok oa =>
                (Ok tt, tick (tick w6),
                 t1 ++ t2 ++ t3 ++ timed "Argon2id" ha oa R w6)
            end
        end
    end.
Proof.
  intros Hpos Hfin. cbv zeta. unfold timing_stage.
  assert (Hnz : REPEAT c <> 0) by lia.
  assert (H1 := time_hasher_do_hash_ok "SHA-256" (main_sha256_hasher c) _ (REPEAT c) w
                  eq_refl Hnz Hfin).
  destruct (primitive_output hb) as [ob|e] eqn:Eb.
  - assert (H2 := time_hasher_do_hash_ok "bcrypt" hb ob (REPEAT c) (tick (tick w))
                    Eb Hnz Hfin).
    destruct (primitive_output hs) as [os|e] eqn:Es.
    + assert (H3 := time_hasher_do_hash_ok "scrypt" hs os (REPEAT c)
                      (tick (tick (tick (tick w)))) Es Hnz Hfin).
      destruct (primitive_output ha) as [oa|e] eqn:Ea.
      * assert (H4 := time_hasher_do_hash_ok "Argon2id" ha oa (REPEAT c)
                        (tick (tick (tick (tick (tick (tick w)))))) Ea Hnz Hfin).
        apply (bind_ok_run _ _ _ _ _ _ _ _ _ H1).
        apply (bind_ok_run _ _ _ _ _ _ _ _ _ H2).
        apply (bind_ok_run _ _ _ _ _ _ _ _ _ H3). exact H4.
      * apply (bind_ok_run _ _ _ _ _ _ _ _ _ H1).
        apply (bind_ok_run _ _ _ _ _ _ _ _ _ H2).
        apply (bind_ok_run _ _ _ _ _ _ _ _ _ H3).
        apply time_hasher_do_hash_failure; assumption.
    + apply (bind_ok_run _ _ _ _ _ _ _ _ _ H1).
      apply (bind_ok_run _ _ _ _ _ _ _ _ _ H2).
      apply bind_failure. apply time_hasher_do_hash_failure; assumption.
  - apply (bind_ok_run _ _ _ _ _ _ _ _ _ H1).
    apply bind_failure. apply time_hasher_do_hash_failure; assumption.
Qed.

Lemma cost_accepted (cost : Z) :
  4 <= cost <= 31 -> ((cost <? 4) || (31 <? cost))%bool = false.
Proof.
  intros H. apply orb_false_intro; apply Z.ltb_ge; lia.
Qed.

(** X5. With a cost that bcrypt accepts, a usable count and primitives
    that accept the parameters, [main] runs to its end: it prints the
    banner, the heading and the four result lines in the order SHA-256,
    bcrypt, scrypt, Argon2id, each mean taken from its own pair of
    consecutive clock readings; every callable is called [REPEAT] times;
    the run takes eight readings and forty-eight random bytes. *)
Theorem main_reports_in_order
    (c : Configuration) (w : World U) (out_b out_s out_a : bytes) :
  4 <= BCRYPT_COST c <= 31 ->
  1 <= REPEAT c ->
  PyFloat.is_finite (PyFloat.of_Z (REPEAT c)) = true ->
  primitive_output (main_bcrypt_hasher c w) = Ok out_b ->
  primitive_output (main_scrypt_hasher c w) = Ok out_s ->
  primitive_output (main_argon2id_hasher c w) = Ok out_a ->
  exists w' l,
    main c w = (Ok tt, w', l)
    /\ printed l = banner c ++ heading :: main_lines c w
    /\ invocations l = (4 * Z.to_nat (REPEAT c))%nat
    /\ clock_reads w' = (8 + clock_reads w)%nat
    /\ entropy_used w' = (entropy_used w + 48)%nat
    /\ user w' = user w.
Proof.
  intros Hcost Hpos Hfin Hb Hs Ha.
  pose proof (timing_stage_run c (consume 48 w) (main_bcrypt_hasher c w)
                (main_scrypt_hasher c w) (main_argon2id_hasher c w) Hpos Hfin) as Hstage.
  cbv zeta in Hstage. rewrite Hb, Hs, Ha in Hstage.
  eexists _, _. split; [exact (main_run c w _ _ _ (cost_accepted _ Hcost) Hstage) |].
  split; [| split; [| repeat split]].
  - rewrite !printed_app, printed_prints, printed_draws. cbn [printed app].
    rewrite !printed_app, !printed_timed. reflexivity.
  - rewrite !invocations_app, invocations_prints, invocations_draws.
    change (EvPrint heading :: ?l) with ([EvPrint heading] ++ l).
    rewrite !invocations_app, !invocations_timed. cbn. lia.
Qed.

(** X6. [main] stops at the first callable whose primitive fails: the
    exception of that primitive ends the script, and the report holds the
    lines of the algorithms timed before it and none after. *)
Theorem main_stops_at_first_failure (c : Configuration) (w : World U) :
  4 <= BCRYPT_COST c <= 31 ->
  1 <= REPEAT c ->
  PyFloat.is_finite (PyFloat.of_Z (REPEAT c)) = true ->
  let run := main c w in
  let report n := banner c ++ heading :: firstn n (main_lines c w) in
  match primitive_output (main_bcrypt_hasher c w),
        primitive_output (main_scrypt_hasher c w),
        primitive_output (main_argon2id_hasher c w) with
  | Raise e, _, _ => fst (fst run) = Raise e /\ printed (snd run) = report 1%nat
  | Ok _, Raise e, _ => fst (fst run) = Raise e /\ printed (snd run) = report 2%nat
  | Ok _, Ok _, Raise e => fst (fst run) = Raise e /\ printed (snd run) = report 3%nat
  | Ok _, Ok _, Ok _ => fst (fst run) = Ok tt
  end.
Proof.
  intros Hcost Hpos Hfin. cbv zeta.
  pose proof (timing_stage_run c (consume 48 w) (main_bcrypt_hasher c w)
                (main_scrypt_hasher c w) (main_argon2id_hasher c w) Hpos Hfin) as Hstage.
  cbv zeta in Hstage.
  destruct (primitive_output (main_bcrypt_hasher c w)) as [ob|e].
  - destruct (primitive_output (main_scrypt_hasher c w)) as [os|e].
    + destruct (primitive_output (main_argon2id_hasher c w)) as [oa|e];
        rewrite (main_run c w _ _ _ (cost_accepted _ Hcost) Hstage); cbn [fst snd];
        [reflexivity |].
      split; [reflexivity |].
      rewrite !printed_app, printed_prints, printed_draws. cbn [printed app].
      rewrite !printed_app, !printed_timed. reflexivity.
    + rewrite (main_run c w _ _ _ (cost_accepted _ Hcost) Hstage). cbn [fst snd].
      split; [reflexivity |].
      rewrite !printed_app, printed_prints, printed_draws. cbn [printed app].
      rewrite !printed_app, !printed_timed. reflexivity.
  - rewrite (main_run c w _ _ _ (cost_accepted _ Hcost) Hstage). cbn [fst snd].
    split; [reflexivity |].
    rewrite !printed_app, printed_prints, printed_draws. cbn [printed app].
    rewrite !printed_app, !printed_timed. reflexivity.
Qed.

(** X7. With [REPEAT = 0], [main] builds all four callables (drawing the
    three salts), prints the banner and the heading, and then ends in the
    division by zero of the first timing: no hash is computed and no
    result line is printed. *)
Theorem main_zero_repeat (c : Configuration) (w : World U) :
  4 <= BCRYPT_COST c <= 31 ->
  REPEAT c = 0 ->
  let start := perf_counter_reading (clock_reads w) in
  let end_ := perf_counter_reading (S (clock_reads w)) in
  main c w
  = (Raise (ZeroDivisionError "float division by zero"), tick (tick (consume 48 w)),
     map EvPrint (banner c) ++ map EvUrandom (salts_drawn w)
     ++ [EvPrint heading; EvClock start; EvClock end_]).
Proof.
  intros Hcost Hzero. cbv zeta.
  apply (main_run c w _ _ _ (cost_accepted _ Hcost)).
  unfold timing_stage. apply bind_failure. rewrite Hzero, time_hasher_unfold. reflexivity.
Qed.

(** ** Randomness and the clock in [main] *)

(** A statement that draws no random bytes and leaves the entropy source
    and the caller's state as they were. *)
Definition quiet (m : M U unit) : Prop :=
  forall w, exists r w' l,
    m w = (r, w', l)
    /\ entropy_used w' = entropy_used w /\ user w' = user w
    /\ trace_entropy_draws l = 0%nat /\ random_draws l = [].

Lemma quiet_bind (m k : M U unit) : quiet m -> quiet k -> quiet (m ;; k).
Proof.
  intros Hm Hk w. destruct (Hm w) as (r1 & w1 & l1 & E1 & He1 & Hu1 & Hd1 & Hr1).
  destruct r1 as [[]|e].
  - destruct (Hk w1) as (r2 & w2 & l2 & E2 & He2 & Hu2 & Hd2 & Hr2).
    exists r2, w2, (l1 ++ l2). split; [exact (bind_ok_run _ _ _ _ _ _ _ _ _ E1 E2) |].
    rewrite trace_entropy_draws_app, random_draws_app, Hd1, Hd2, Hr1, Hr2.
    repeat split; congruence.
  - exists (Raise e), w1, l1. split; [exact (bind_failure _ _ _ _ _ _ E1) |].
    repeat split; assumption.
Qed.

Lemma quiet_time_hasher (name : string) (h : hasher) (repeat : Z) :
  quiet (time_hasher name (do_hash h) repeat).
Proof.
  intros w. destruct (time_hasher_do_hash_frame name h repeat w)
    as (r & w' & l & Hrun & Hw & Hdraws & Hnone).
  exists r, w', l. split; [exact Hrun |].
  destruct Hw as [-> | ->]; repeat split; assumption.
Qed.

Lemma quiet_timing_stage (c : Configuration) (sha hb hs ha : hasher) :
  quiet (timing_stage c sha hb hs ha).
Proof.
  unfold timing_stage. repeat apply quiet_bind; apply quiet_time_hasher.
Qed.

(** X8. In every run of [main], however it ends, all random bytes are
    drawn before the clock is read for the first time: the trace splits
    into a setup part with no reading of the clock and a timing part in
    which no event, nested ones included, draws random bytes. *)
Theorem main_draws_before_timing (c : Configuration) (w : World U) :
  exists setup timing,
    snd (main c w) = setup ++ timing
    /\ filter is_clock setup = []
    /\ trace_entropy_draws timing = 0%nat.
Proof.
  destruct (((BCRYPT_COST c <? 4) || (31 <? BCRYPT_COST c))%bool) eqn:Hcost.
  - assert (Hfail : make_bcrypt_hasher (PASSWORD c) (BCRYPT_COST c) w
                    = (Raise (ValueError "Invalid rounds"), w, []))
      by (rewrite make_bcrypt_hasher_run, Hcost; reflexivity).
    exists (map EvPrint (banner c)), [].
    assert (Hmain : main c w = (Raise (ValueError "Invalid rounds"), w,
                                map EvPrint (banner c))).
    { unfold main, banner. cbn [map]. do 9 apply bind_print_run.
      unfold make_sha256_hasher at 1. unfold bind at 1, ret at 1.
      rewrite (bind_failure _ _ _ _ _ _ Hfail). reflexivity. }
    rewrite Hmain. cbn [snd]. rewrite app_nil_r.
    split; [reflexivity |]. split; [apply clock_events_prints | reflexivity].
  - destruct (quiet_timing_stage c (main_sha256_hasher c) (main_bcrypt_hasher c w)
                (main_scrypt_hasher c w) (main_argon2id_hasher c w) (consume 48 w))
      as (r & w' & l & Hstage & _ & _ & Hdraws & _).
    rewrite (main_run c w _ _ _ Hcost Hstage). cbn [snd].
    exists (map EvPrint (banner c) ++ map EvUrandom (salts_drawn w) ++ [EvPrint heading]), l.
    split; [now rewrite <- !app_assoc |].
    split; [| exact Hdraws].
    rewrite !clock_events_app, clock_events_prints. reflexivity.
Qed.

(** ** The salts [main] hashes with *)

Lemma hashed_salts_calls (h : hasher) (l : trace) :
  Forall (call_of h) l ->
  Forall (fun hashed => hashed = (algorithm_of h, hashed_salt h)) (hashed_salts l).
Proof.
  induction 1 as [|x l Hx _ IH]; [constructor |].
  destruct Hx as [-> | [out ->]]; [exact IH |]. constructor; [reflexivity | exact IH].
Qed.

(** A statement all of whose hashes satisfy [Q]. *)
Definition salted_by (Q : algorithm * bytes -> Prop) (m : M U unit) : Prop :=
  forall w, Forall Q (hashed_salts (snd (m w))).

Lemma salted_by_bind (Q : algorithm * bytes -> Prop) (m k : M U unit) :
  salted_by Q m -> salted_by Q k -> salted_by Q (m ;; k).
Proof.
  intros Hm Hk w. unfold bind. specialize (Hm w).
  destruct (m w) as [[[[]|e] w1] l1]; cbn [snd] in Hm; [| exact Hm].
  specialize (Hk w1). destruct (k w1) as [[r2 w2] l2]. cbn [snd] in *.
  rewrite hashed_salts_app. apply Forall_app. now split.
Qed.

Lemma salted_by_time_hasher (Q : algorithm * bytes -> Prop) (name : string)
    (h : hasher) (repeat : Z) :
  Q (algorithm_of h, hashed_salt h) ->
  salted_by Q (time_hasher name (do_hash h) repeat).
Proof.
  intros HQ w. rewrite time_hasher_unfold. cbv zeta. unfold for_range.
  destruct (repeat_do_hash h (Z.to_nat repeat) (tick w)) as (r & l & Hrun & Hcalls & _).
  assert (Hl : Forall Q (hashed_salts l)).
  { eapply Forall_impl; [| exact (hashed_salts_calls h l Hcalls)].
    intros hashed ->. exact HQ. }
  rewrite Hrun. destruct r as [[]|e].
  - destruct (average_ms _ _ repeat) as [avg_ms|e2]; cbn [snd];
      change (EvClock ?s :: l ++ ?t) with ([EvClock s] ++ l ++ t);
      rewrite !hashed_salts_app, app_nil_r; exact Hl.
  - cbn [snd]. exact Hl.
Qed.

(** The salt [main] hashes with for each algorithm: none for SHA-256, the
    encoding of the first random draw for bcrypt, the second draw for
    scrypt, the third for Argon2id. *)
Definition main_salt (c : Configuration) (w : World U) (alg : algorithm) : bytes :=
  match alg with
  | SHA256 => []
  | Bcrypt =>
      salt_of_randomness (BcryptFactory (PASSWORD c) (BCRYPT_COST c))
        (nth 0 (salts_drawn w) [])
  | Scrypt => nth 1 (salts_drawn w) []
  | Argon2id => nth 2 (salts_drawn w) []
  end.

(** X9. With a cost that bcrypt accepts, every run of [main], however its
    timing ends, draws exactly three times from the entropy source: three
    consecutive sixteen-byte windows, forty-eight bytes in all.  Every
    hash computed in the run uses the salt drawn for its algorithm, in the
    order bcrypt (encoded), scrypt, Argon2id; SHA-256 uses none. *)
Theorem main_draws_three_salts (c : Configuration) (w : World U) :
  4 <= BCRYPT_COST c <= 31 ->
  let run := main c w in
  random_draws (snd run) = salts_drawn w
  /\ trace_entropy_draws (snd run) = 3%nat
  /\ entropy_used (snd (fst run)) = (entropy_used w + 48)%nat
  /\ Forall (fun hashed => snd hashed = main_salt c w (fst hashed))
       (hashed_salts (snd run)).
Proof.
  intros Hcost. cbv zeta.
  pose (stage := timing_stage c (main_sha256_hasher c) (main_bcrypt_hasher c w)
                   (main_scrypt_hasher c w) (main_argon2id_hasher c w)).
  assert (Hsalts : salted_by (fun hashed => snd hashed = main_salt c w (fst hashed)) stage)
    by (unfold stage, timing_stage;
        repeat apply salted_by_bind; apply salted_by_time_hasher; reflexivity).
  specialize (Hsalts (consume 48 w)).
  destruct (quiet_timing_stage c (main_sha256_hasher c) (main_bcrypt_hasher c w)
              (main_scrypt_hasher c w) (main_argon2id_hasher c w) (consume 48 w))
    as (r & w' & l & Hstage & Hused & _ & Hdraws & Hnone).
  fold stage in Hstage. rewrite Hstage in Hsalts. cbn [snd] in Hsalts.
  rewrite (main_run c w _ _ _ (cost_accepted _ Hcost) Hstage). cbn [fst snd].
  split; [| split; [| split; [exact Hused |]]].
  - rewrite !random_draws_app, random_draws_prints, random_draws_draws.
    cbn [random_draws app]. rewrite Hnone. now rewrite app_nil_r.
  - rewrite !trace_entropy_draws_app.
    change (EvPrint heading :: l) with ([EvPrint heading] ++ l).
    rewrite trace_entropy_draws_app, Hdraws.
    assert (Hb : trace_entropy_draws (map EvPrint (banner c)) = 0%nat) by reflexivity.
    rewrite Hb. reflexivity.
  - change (EvPrint heading :: l) with ([EvPrint heading] ++ l).
    rewrite !hashed_salts_app, hashed_salts_prints, hashed_salts_draws. exact Hsalts.
Qed.

(** ** The work [main] does *)

Lemma time_hasher_invocations_le (name : string) (hash_func : M U unit)
    (repeat : Z) (w : World U) :
  (invocations (snd (time_hasher name hash_func repeat w)) <= Z.to_nat repeat)%nat.
Proof.
  rewrite time_hasher_unfold. cbv zeta.
  destruct (for_range repeat (call hash_func) (tick w)) as [[r1 w2] l1] eqn:Hloop.
  destruct (repeat_stmt_calls _ _ _ _ _ _ Hloop) as (Hall & Hok & Herr).
  pose proof (invocations_all _ Hall) as Hinv.
  destruct r1 as [[]|e1].
  - specialize (Hok tt eq_refl).
    destruct (average_ms _ _ repeat) as [avg_ms|e2]; cbn [snd];
      change (EvClock ?s :: l1 ++ ?t) with ([EvClock s] ++ l1 ++ t);
      rewrite !invocations_app, Hinv, Hok; cbn; lia.
  - destruct (Herr e1 eq_refl) as [_ Hle]. cbn [snd].
    change (EvClock ?s :: l1) with ([EvClock s] ++ l1).
    rewrite invocations_app, Hinv. cbn. lia.
Qed.

Lemma bind_invocations_le (m k : M U unit) (a b : nat) :
  (forall w, (invocations (snd (m w)) <= a)%nat) ->
  (forall w, (invocations (snd (k w)) <= b)%nat) ->
  forall w, (invocations (snd ((m ;; k) w)) <= a + b)%nat.
Proof.
  intros Hm Hk w. unfold bind. specialize (Hm w).
  destruct (m w) as [[[[]|e] w1] l1]; cbn [snd] in Hm.
  - specialize (Hk w1). destruct (k w1) as [[r2 w2] l2]. cbn [snd] in *.
    rewrite invocations_app. lia.
  - cbn [snd]. lia.
Qed.

(** X10. In every run of [main], whatever the constants and however the
    run ends, at most [4 * REPEAT] hashes are computed; none for
    [REPEAT <= 0]. *)
Theorem main_call_bound (c : Configuration) (w : World U) :
  (invocations (snd (main c w)) <= 4 * Z.to_nat (REPEAT c))%nat.
Proof.
  destruct (((BCRYPT_COST c <? 4) || (31 <? BCRYPT_COST c))%bool) eqn:Hcost.
  - assert (Hfail : make_bcrypt_hasher (PASSWORD c) (BCRYPT_COST c) w
                    = (Raise (ValueError "Invalid rounds"), w, []))
      by (rewrite make_bcrypt_hasher_run, Hcost; reflexivity).
    assert (Hmain : main c w = (Raise (ValueError "Invalid rounds"), w,
                                map EvPrint (banner c))).
    { unfold main, banner. cbn [map]. do 9 apply bind_print_run.
      unfold make_sha256_hasher at 1. unfold bind at 1, ret at 1.
      rewrite (bind_failure _ _ _ _ _ _ Hfail). reflexivity. }
    rewrite Hmain. cbn [snd]. rewrite invocations_prints. lia.
  - pose (stage := timing_stage c (main_sha256_hasher c) (main_bcrypt_hasher c w)
                     (main_scrypt_hasher c w) (main_argon2id_hasher c w)).
    assert (Hstage : (invocations (snd (stage (consume 48 w)))
                      <= Z.to_nat (REPEAT c) + (Z.to_nat (REPEAT c)
                         + (Z.to_nat (REPEAT c) + Z.to_nat (REPEAT c))))%nat)
      by (unfold stage, timing_stage;
          repeat apply bind_invocations_le; intros; apply time_hasher_invocations_le).
    destruct (stage (consume 48 w)) as [[r w'] l] eqn:Hrun.
    rewrite (main_run c w _ _ _ Hcost Hrun). cbn [snd] in *.
    rewrite !invocations_app, invocations_prints, invocations_draws.
    change (EvPrint heading :: l) with ([EvPrint heading] ++ l).
    rewrite invocations_app. cbn. lia.
Qed.

End Coverage.

(** * A concrete platform *)

Module Demo.

(** ** bcrypt's radix-64 encoding *)

Definition alphabet : bytes :=
  list_byte_of_string "./ABCDEFGHIJKLMNOPQRSTUVWXYZabcdefghijklmnopqrstuvwxyz0123456789".

Definition radix64_char (i : Z) : byte := nth (Z.to_nat i) alphabet x00.

(** The position of a character in the alphabet (64 when it is not there). *)
Fixpoint position (b : byte) (table : bytes) : Z :=
  match table with
  | [] => 0
  | c :: rest => if Byte.eqb b c then 0 else 1 + position b rest
  end.

Definition radix64_index (b : byte) : Z := position b alphabet.

(** Three bytes give four six-bit groups; a last group of one or two bytes
    gives two or three. *)
Fixpoint sextets (data : list Z) : list Z :=
  match data with
  | [] => []
  | [a] => [a / 4; (a mod 4) * 16]
  | [a; b] => [a / 4; (a mod 4) * 16 + b / 16; (b mod 16) * 4]
  | a :: b :: c :: rest =>
      a / 4 :: (a mod 4) * 16 + b / 16 :: (b mod 16) * 4 + c / 64 :: c mod 64
      :: sextets rest
  end.

Definition byte_value (b : byte) : Z := Z.of_N (Byte.to_N b).

Definition encode_base64 (data : bytes) : bytes :=
  map radix64_char (sextets (map byte_value data)).

Ltac div_lia := cbv beta in *; Z.div_mod_to_equations; lia.

Lemma list_ind3 {A : Type} (Q : list A -> Prop) :
  Q [] -> (forall a, Q [a]) -> (forall a b, Q [a; b]) ->
  (forall a b c l, Q l -> Q (a :: b :: c :: l)) ->
  forall l, Q l.
Proof.
  intros H0 H1 H2 H3.
  assert (H : forall l, Q l /\ (forall a, Q (a :: l)) /\ (forall a b, Q (a :: b :: l))).
  { induction l as [|x l (IH0 & IH1 & IH2)]; repeat split; auto. }
  intros l. apply H.
Qed.

Definition octet (a : Z) : Prop := 0 <= a < 256.
Definition sextet (a : Z) : Prop := 0 <= a < 64.

Lemma sextets_range (data : list Z) :
  Forall octet data -> Forall sextet (sextets data).
Proof.
  unfold octet, sextet.
  induction data as [|a|a b|a b c l IH] using list_ind3; intros H; cbn [sextets].
  - constructor.
  - inversion H as [|? ? Ha _]; subst.
    repeat (apply Forall_cons; [div_lia |]). constructor.
  - inversion H as [|? ? Ha H']; subst. inversion H' as [|? ? Hb _]; subst.
    repeat (apply Forall_cons; [div_lia |]). constructor.
  - inversion H as [|? ? Ha H']; subst. inversion H' as [|? ? Hb H'']; subst.
    inversion H'' as [|? ? Hc Hl]; subst.
    repeat (apply Forall_cons; [div_lia |]). auto.
Qed.

Lemma sextets_inj (d1 : list Z) :
  forall d2, Forall octet d1 -> Forall octet d2 ->
    sextets d1 = sextets d2 -> d1 = d2.
Proof.
  unfold octet.
  induction d1 as [|a|a b|a b c l IH] using list_ind3;
    intros [|a' [|b' [|c' l']]] H1 H2 E; cbn [sextets] in E;
    try discriminate; try reflexivity.
  - inversion H1 as [|? ? Ha _]; inversion H2 as [|? ? Ha' _]; subst.
    injection E as E1 E2. f_equal. div_lia.
  - inversion H1 as [|? ? Ha H1']; inversion H1' as [|? ? Hb _];
      inversion H2 as [|? ? Ha' H2']; inversion H2' as [|? ? Hb' _]; subst.
    injection E as E1 E2 E3.
    assert (a = a' /\ b = b') as [-> ->] by div_lia. reflexivity.
  - inversion H1 as [|? ? Ha H1']; inversion H1' as [|? ? Hb H1''];
      inversion H1'' as [|? ? Hc Hl];
      inversion H2 as [|? ? Ha' H2']; inversion H2' as [|? ? Hb' H2''];
      inversion H2'' as [|? ? Hc' Hl']; subst.
    injection E as E1 E2 E3 E4 E5.
    assert (a = a' /\ b = b' /\ c = c') as (-> & -> & ->) by div_lia.
    f_equal. f_equal. f_equal. now apply IH.
Qed.

Lemma radix64_index_char (i : Z) : sextet i -> radix64_index (radix64_char i) = i.
Proof.
  intros Hi.
  assert (Hall : forallb (fun n => radix64_index (radix64_char (Z.of_nat n)) =? Z.of_nat n)
                   (seq 0 64) = true) by (vm_compute; reflexivity).
  rewrite forallb_forall in Hall.
  specialize (Hall (Z.to_nat i)). unfold sextet in Hi.
  rewrite Z2Nat.id in Hall by lia.
  apply Z.eqb_eq, Hall, in_seq. lia.
Qed.

Lemma radix64_char_inj (i j : Z) :
  sextet i -> sextet j -> radix64_char i = radix64_char j -> i = j.
Proof.
  intros Hi Hj E.
  rewrite <- (radix64_index_char i Hi), <- (radix64_index_char j Hj). now rewrite E.
Qed.

Lemma map_inj_on {A B : Type} (f : A -> B) (Q : A -> Prop) :
  (forall x y, Q x -> Q y -> f x = f y -> x = y) ->
  forall l1 l2, Forall Q l1 -> Forall Q l2 -> map f l1 = map f l2 -> l1 = l2.
Proof.
  intros Hf. induction l1 as [|x l1 IH]; intros [|y l2] H1 H2 E;
    try discriminate; [reflexivity |].
  cbn [map] in E. injection E as Exy E.
  inversion H1; inversion H2; subst. f_equal; auto.
Qed.

Lemma byte_value_octet (b : byte) : octet (byte_value b).
Proof.
  unfold octet, byte_value. pose proof (Byte.to_N_bounded b). lia.
Qed.

Lemma byte_value_inj (a b : byte) : byte_value a = byte_value b -> a = b.
Proof.
  unfold byte_value. intros E. apply N2Z.inj in E.
  pose proof (Byte.of_to_N a) as Ha. rewrite E, Byte.of_to_N in Ha. congruence.
Qed.

Lemma byte_values_octets (data : bytes) : Forall octet (map byte_value data).
Proof.
  induction data; cbn [map]; constructor; auto using byte_value_octet.
Qed.

(** The encoding is injective on byte strings of any length. *)
Lemma encode_base64_inj (a b : bytes) : encode_base64 a = encode_base64 b -> a = b.
Proof.
  unfold encode_base64. intros E.
  apply (map_inj_on radix64_char sextet radix64_char_inj) in E;
    try (apply sextets_range, byte_values_octets).
  apply sextets_inj in E; try apply byte_values_octets.
  revert E. apply (map_inj_on byte_value (fun _ => True)).
  - intros x y _ _. apply byte_value_inj.
  - apply Forall_forall. auto.
  - apply Forall_forall. auto.
Qed.

(** ** Time and entropy *)

(** Readings 0, 0.25, 0.5, 1, 2, ... seconds: the mantissa is [2^52] and
    the exponent grows by one per reading (and stays put after sixty
    readings). *)
Definition reading (k : nat) : float :=
  match k with
  | O => S754_zero false
  | S j => S754_finite false 4503599627370496 (Z.of_nat (Nat.min j 60) - 54)
  end.

Lemma reading_well_formed (k : nat) : PyFloat.well_formed (reading k) = true.
Proof.
  destruct k as [|j]; [reflexivity |].
  unfold reading, PyFloat.well_formed, valid_binary, bounded, canonical_mantissa,
    fexp, emin, PyFloat.prec, PyFloat.emax.
  change (Z.pos (digits2_pos 4503599627370496)) with 53.
  apply andb_true_intro. split; [apply Z.eqb_eq | apply Z.leb_le]; lia.
Qed.

Lemma reading_below (k : nat) : PyFloat.below 64 (reading k) = true.
Proof.
  destruct k as [|j]; [reflexivity |].
  unfold reading, PyFloat.below.
  change (Z.pos (digits2_pos 4503599627370496)) with 53.
  apply Z.leb_le. lia.
Qed.

Definition random_byte (k : nat) : byte :=
  match Byte.of_nat ((37 * k + 11) mod 256) with
  | Some b => b
  | None => x00
  end.

(** ** Stand-ins for the hashing primitives *)

Definition hex_digit (n : Z) : ascii := hex_char (Z.to_nat (n mod 16)).

(** A stand-in for the digest: not SHA-256, only a function of the data. *)
Definition toy_hexdigest (data : bytes) : string :=
  let n := fold_left (fun acc b => (31 * acc + byte_value b) mod 65536) data 7 in
  String (hex_digit (n / 4096)) (String (hex_digit (n / 256))
    (String (hex_digit (n / 16)) (String (hex_digit n) EmptyString))).

Definition toy_mix (password salt : bytes) : bytes :=
  list_byte_of_string (toy_hexdigest (salt ++ password)).

Definition toy_hashpw (password salt : bytes) : Res bytes :=
  match salt with
  | x24 :: x32 :: _ => Ok (salt ++ toy_mix password salt)
  | _ => Raise (ValueError "Invalid salt")
  end.

Definition toy_scrypt (password salt : bytes) (n r p : Z) : Res bytes :=
  if ((n <? 2) || (r <? 1) || (p <? 1))%bool
  then Raise (ValueError "Invalid parameter combination for n, r, p, maxmem.")
  else Ok (toy_mix password salt).

Definition toy_hash_secret (secret salt : bytes)
    (time_cost memory_cost parallelism hash_len : Z) (type : argon2_type) : Res bytes :=
  if ((time_cost <? 1) || (memory_cost <? 8 * parallelism) || (parallelism <? 1))%bool
  then Raise (OtherError "HashingError" "Memory cost is too small")
  else Ok (toy_mix secret salt).

#[export] Instance platform : Platform := {|
  perf_counter_reading := reading;
  urandom_byte := random_byte;
  sha256_hexdigest := toy_hexdigest;
  bcrypt_encode_base64 := encode_base64;
  bcrypt_hashpw := toy_hashpw;
  hashlib_scrypt := toy_scrypt;
  hash_secret := toy_hash_secret;
  perf_counter_well_formed := reading_well_formed;
  perf_counter_below := reading_below;
  bcrypt_encode_base64_inj := fun a b _ _ => encode_base64_inj a b
|}.

(** A world in which nothing has happened; the state of a stub is the
    number of times it was called. *)
Definition w0 : World nat := mkWorld 0 0 0%nat.

(** A callable that does nothing. *)
Definition noop : M nat unit := ret tt.

(** A callable that counts its calls and fails on call number [bad]. *)
Definition failing_stub (bad : nat) : M nat unit :=
  fun w =>
    let count := S (user w) in
    let w' := mkWorld (clock_reads w) (entropy_used w) count in
    if (count =? bad)%nat
    then (Raise (OtherError "RuntimeError" "boom"), w', [])
    else (Ok tt, w', []).

(** The module constants with a bcrypt cost that [bcrypt.gensalt]
    rejects. *)
Definition low_cost_constants : Configuration := {|
  PASSWORD := PASSWORD module_constants;
  REPEAT := REPEAT module_constants;
  BCRYPT_COST := 3;
  SCRYPT_N := SCRYPT_N module_constants;
  SCRYPT_R := SCRYPT_R module_constants;
  SCRYPT_P := SCRYPT_P module_constants;
  ARGON2_TIME_COST := ARGON2_TIME_COST module_constants;
  ARGON2_MEMORY_COST := ARGON2_MEMORY_COST module_constants;
  ARGON2_PARALLELISM := ARGON2_PARALLELISM module_constants
|}.

End Demo.

(** * The properties at work *)

#[local] Existing Instance Demo.platform.

(** A callable that does nothing can be called any number of times. *)
Lemma for_range_noop (n : Z) (w : World nat) :
  for_range n (call Demo.noop) w
  = (Ok tt, w, List.repeat (EvInvoke []) (Z.to_nat n)).
Proof.
  unfold for_range. generalize (Z.to_nat n) as k.
  induction k as [|k IH]; [reflexivity |].
  rewrite repeat_stmt_succ, call_unfold. cbn [Demo.noop ret fst snd].
  rewrite IH. reflexivity.
Qed.

(** C1 at work: the bcrypt factory of the script, cost 12. *)
Lemma salt_generated_once_witness :
  exists h w' l,
    construct (P := Demo.platform)
      (BcryptFactory (PASSWORD module_constants) 12) Demo.w0 = (Ok h, w', l)
    /\ trace_entropy_draws l = 1%nat
    /\ entropy_used w' = 16%nat
    /\ forall (n : nat) (w1 : World nat),
         exists r l1,
           repeat_stmt n (call (do_hash h)) w1 = (r, w1, l1)
           /\ trace_entropy_draws l1 = 0%nat.
Proof.
  pose (fac := BcryptFactory (PASSWORD module_constants) 12).
  pose (random := entropy_bytes (P := Demo.platform) 0 16).
  assert (H : construct (P := Demo.platform) fac Demo.w0
              = (Ok (BcryptHasher (PASSWORD module_constants)
                       (salt_of_randomness fac random)),
                 consume 16 Demo.w0, [EvUrandom random]))
    by (vm_compute; reflexivity).
  destruct (salt_generated_once_at_construction fac _ _ _ _ H)
    as (_ & Hdraws & Hused & _ & Hcalls).
  eexists _, _, _. split; [exact H |]. split; [exact Hdraws |].
  split; [exact Hused |].
  intros n w1. destruct (Hcalls n w1) as (r & l1 & Hrun & _ & Hnone).
  now exists r, l1.
Defined.

(** C8 at work: each of the three factories of the script, run twice in a
    row with the script's constants. *)
Lemma distinct_randomness_witness :
  let built_twice (fac : salted_factory) :=
    exists h1 h2,
      construct (P := Demo.platform) fac Demo.w0
      = (Ok h1, consume 16 Demo.w0,
         [EvUrandom (entropy_bytes (P := Demo.platform) 0 16)])
      /\ construct (P := Demo.platform) fac (consume 16 Demo.w0)
         = (Ok h2, consume 16 (consume 16 Demo.w0),
            [EvUrandom (entropy_bytes (P := Demo.platform) 16 16)])
      /\ captured_salt h1 <> captured_salt h2 in
  built_twice (BcryptFactory (PASSWORD module_constants) 12)
  /\ built_twice (ScryptFactory (PASSWORD module_constants) 16384 8 1)
  /\ built_twice (Argon2idFactory (PASSWORD module_constants) 2 64000 1).
Proof.
  cbv zeta.
  assert (Hd : entropy_bytes (P := Demo.platform) (entropy_used Demo.w0) 16
               <> entropy_bytes (P := Demo.platform)
                    (entropy_used (consume 16 Demo.w0)) 16)
    by (vm_compute; discriminate).
  split; [| split].
  - pose (fac := BcryptFactory (PASSWORD module_constants) 12).
    assert (H1 : construct (P := Demo.platform) fac Demo.w0
                 = (Ok (BcryptHasher (PASSWORD module_constants)
                          (salt_of_randomness fac (entropy_bytes (P := Demo.platform) 0 16))),
                    consume 16 Demo.w0,
                    [EvUrandom (entropy_bytes (P := Demo.platform) 0 16)]))
      by (vm_compute; reflexivity).
    destruct (distinct_randomness_distinct_salts fac _ (consume 16 Demo.w0) _ _ _ H1 Hd)
      as (_ & _ & h2 & H2 & Hsalts).
    eexists _, h2. split; [exact H1 |]. split; [exact H2 | exact Hsalts].
  - pose (fac := ScryptFactory (PASSWORD module_constants) 16384 8 1).
    assert (H1 : construct (P := Demo.platform) fac Demo.w0
                 = (Ok (ScryptHasher (PASSWORD module_constants)
                          (entropy_bytes (P := Demo.platform) 0 16) 16384 8 1),
                    consume 16 Demo.w0,
                    [EvUrandom (entropy_bytes (P := Demo.platform) 0 16)]))
      by (vm_compute; reflexivity).
    destruct (distinct_randomness_distinct_salts fac _ (consume 16 Demo.w0) _ _ _ H1 Hd)
      as (_ & _ & h2 & H2 & Hsalts).
    eexists _, h2. split; [exact H1 |]. split; [exact H2 | exact Hsalts].
  - pose (fac := Argon2idFactory (PASSWORD module_constants) 2 64000 1).
    assert (H1 : construct (P := Demo.platform) fac Demo.w0
                 = (Ok (Argon2idHasher (PASSWORD module_constants)
                          (entropy_bytes (P := Demo.platform) 0 16) 2 64000 1),
                    consume 16 Demo.w0,
                    [EvUrandom (entropy_bytes (P := Demo.platform) 0 16)]))
      by (vm_compute; reflexivity).
    destruct (distinct_randomness_distinct_salts fac _ (consume 16 Demo.w0) _ _ _ H1 Hd)
      as (_ & _ & h2 & H2 & Hsalts).
    eexists _, h2. split; [exact H1 |]. split; [exact H2 | exact Hsalts].
Defined.

(** C2 at work: five calls between the readings 0 s and 0.25 s. *)
Lemma time_hasher_reports_mean_witness :
  time_hasher (P := Demo.platform) "noop" Demo.noop 5 Demo.w0
  = (Ok tt, tick (tick Demo.w0),
     [EvClock (Demo.reading 0);
      EvInvoke []; EvInvoke []; EvInvoke []; EvInvoke []; EvInvoke [];
      EvClock (Demo.reading 1);
      EvPrint "noop           50.00 ms per hash (over 5 runs)"]).
Proof.
  destruct (time_hasher_reports_mean (P := Demo.platform) "noop" Demo.noop 5
              Demo.w0 (tick Demo.w0) (List.repeat (EvInvoke []) 5)
              ltac:(lia) eq_refl eq_refl) as [H _].
  rewrite H. vm_compute. reflexivity.
Defined.

(** C4 at work: a count of -1. *)
Lemma nonpositive_repeat_witness :
  exists r out,
    time_hasher (P := Demo.platform) "noop" Demo.noop (-1) Demo.w0
    = (r, tick (tick Demo.w0),
       [EvClock (Demo.reading 0); EvClock (Demo.reading 1)] ++ out)
    /\ r = Ok tt
    /\ out = [EvPrint "noop         -250.00 ms per hash (over -1 runs)"].
Proof.
  destruct (nonpositive_repeat_is_not_rejected (P := Demo.platform) "noop" Demo.noop
              (-1) Demo.w0 ltac:(lia)) as (r & out & Hrun & _ & _ & _ & Hneg).
  destruct (Hneg ltac:(lia) eq_refl) as [Hr Hout].
  exists r, out. split; [exact Hrun |]. split; [exact Hr |].
  rewrite Hout. vm_compute. reflexivity.
Defined.

(** C5 at work: a stub that fails on its third call, five requested. *)
Lemma failure_propagates_witness :
  time_hasher (P := Demo.platform) "stub" (Demo.failing_stub 3) 5 Demo.w0
  = (Raise (OtherError "RuntimeError" "boom"), mkWorld 1 0 3%nat,
     [EvClock (Demo.reading 0); EvInvoke []; EvInvoke []; EvInvoke []])
  /\ invocations
       [EvClock (Demo.reading 0); EvInvoke []; EvInvoke []; EvInvoke []] = 3%nat.
Proof.
  assert (Hfail : fails_at (Demo.failing_stub 3) 3
                    (tick Demo.w0) (OtherError "RuntimeError" "boom")
                    (mkWorld 1 0 3%nat) [EvInvoke []; EvInvoke []; EvInvoke []]).
  { exists (mkWorld 1 0 2%nat), [EvInvoke []; EvInvoke []], [].
    repeat split; lia. }
  destruct (failure_propagates_unchanged (P := Demo.platform) "stub"
              (Demo.failing_stub 3) 5 3 Demo.w0 _ _ _
              ltac:(vm_compute; lia) Hfail) as (Hrun & Hcount & _).
  split; [exact Hrun | exact Hcount].
Defined.

(** C7 at work: the mean of the run above is 50 ms. *)
Lemma mean_latency_nonneg_witness :
  exists avg_ms,
    average_ms (Demo.reading 0) (Demo.reading 1) 5 = Ok avg_ms
    /\ PyFloat.nonneg avg_ms = true.
Proof.
  pose proof (mean_latency_nonneg (P := Demo.platform) "noop" Demo.noop 5
                Demo.w0 (tick Demo.w0) (List.repeat (EvInvoke []) 5)
                ltac:(lia) eq_refl eq_refl) as H.
  cbv zeta in H.
  change (perf_counter_reading (clock_reads Demo.w0)) with (Demo.reading 0) in H.
  change (perf_counter_reading (clock_reads (tick Demo.w0))) with (Demo.reading 1) in H.
  destruct (average_ms (Demo.reading 0) (Demo.reading 1) 5) as [avg_ms|e].
  - exists avg_ms. split; [reflexivity | exact (proj2 H)].
  - discriminate H.
Defined.

(** C3 at work: the script with a bcrypt cost of 3. *)
Lemma factory_failure_witness :
  main (P := Demo.platform) Demo.low_cost_constants Demo.w0
  = (Raise (ValueError "Invalid rounds"), Demo.w0,
     map EvPrint (banner Demo.low_cost_constants))
  /\ exit_status (fst (fst (main (P := Demo.platform) Demo.low_cost_constants Demo.w0)))
     = 1.
Proof.
  destruct (factory_failure_aborts_main (P := Demo.platform)
              Demo.low_cost_constants Demo.w0 Demo.w0
              (ValueError "Invalid rounds") [] eq_refl) as (Hmain & Hexit & _).
  split; [exact Hmain | exact Hexit].
Defined.

(** C6 at work: the line of a two-call run of the SHA-256 callable. *)
Lemma result_line_layout_witness :
  exists sign int_part frac_part,
    "SHA-256       125.00 ms per hash (over 2 runs)"%string
    = (ljust 10 "SHA-256" ++ "  " ++ rjust 8 (sign ++ int_part ++ "." ++ frac_part)
       ++ " ms per hash (over " ++ str_of_Z 2 ++ " runs)")%string
    /\ String.length frac_part = 2%nat
    /\ all_digits frac_part = true.
Proof.
  pose (h := Sha256Hasher (PASSWORD module_constants)).
  pose (hash := EvInvoke [EvHash SHA256 []
                            (list_byte_of_string (Demo.toy_hexdigest (PASSWORD module_constants)))]).
  pose (text := "SHA-256       125.00 ms per hash (over 2 runs)"%string).
  assert (Hrun : time_hasher (P := Demo.platform) "SHA-256" (do_hash h) 2 Demo.w0
                 = (Ok tt, tick (tick Demo.w0),
                    [EvClock (Demo.reading 0); hash; hash; EvClock (Demo.reading 1);
                     EvPrint text]))
    by (vm_compute; reflexivity).
  assert (Hin : In (EvPrint text)
                  [EvClock (Demo.reading 0); hash; hash; EvClock (Demo.reading 1);
                   EvPrint text])
    by (do 4 right; left; reflexivity).
  destruct (result_line_layout (P := Demo.platform) _ _ _ _ _ _ _ _ Hrun Hin)
    as (avg_ms & _ & Htext & _ & _ & _ & _
        & sign & int_part & frac_part & Hfmt & _ & _ & _ & Hlen & Hdig).
  exists sign, int_part, frac_part.
  split; [| split; [exact Hlen | exact Hdig]].
  rewrite <- Hfmt. exact Htext.
Defined.

(** ** Where the script departs from the specification *)

(** C2 as stated fails for a count beyond the range of a float: after
    [2^1024] calls of a callable that does nothing, the division raises
    [OverflowError] and no mean is reported. *)
Lemma overflowing_repeat_reports_no_mean :
  fst (fst (time_hasher (P := Demo.platform) "noop" Demo.noop (2 ^ 1024) Demo.w0))
  = Raise (OverflowError "int too large to convert to float")
  /\ ~ reports_mean (P := Demo.platform) "noop" Demo.noop (2 ^ 1024) Demo.w0.
Proof.
  assert (Hfin : PyFloat.is_finite (PyFloat.of_Z (2 ^ 1024)) = false)
    by (vm_compute; reflexivity).
  assert (Hrun : time_hasher (P := Demo.platform) "noop" Demo.noop (2 ^ 1024) Demo.w0
                 = (Raise (OverflowError "int too large to convert to float"),
                    tick (tick Demo.w0),
                    EvClock (Demo.reading 0)
                    :: List.repeat (EvInvoke []) (Z.to_nat (2 ^ 1024))
                    ++ [EvClock (Demo.reading 1)])).
  { rewrite time_hasher_unfold, for_range_noop. cbv zeta.
    unfold average_ms. rewrite truediv_overflow by exact Hfin. reflexivity. }
  split.
  - rewrite Hrun. reflexivity.
  - intros H. destruct (H _ _ (for_range_noop _ _)) as (avg_ms & rest & E).
    rewrite Hrun in E. discriminate E.
Qed.

(** C3 as stated fails: with a bcrypt cost of 3 the factory fails, and the
    script ends there with exit status 1, having timed and reported
    nothing. *)
Lemma failed_factory_aborts_all :
  main (P := Demo.platform) Demo.low_cost_constants Demo.w0
  = (Raise (ValueError "Invalid rounds"), Demo.w0,
     map EvPrint (banner Demo.low_cost_constants))
  /\ ~ skips_failed_factory (P := Demo.platform) Demo.low_cost_constants Demo.w0.
Proof.
  assert (Hmain : main (P := Demo.platform) Demo.low_cost_constants Demo.w0
                  = (Raise (ValueError "Invalid rounds"), Demo.w0,
                     map EvPrint (banner Demo.low_cost_constants)))
    by (vm_compute; reflexivity).
  split; [exact Hmain |].
  unfold skips_failed_factory. rewrite Hmain. intros H.
  destruct H as [Hexit _].
  - exists (ValueError "Invalid rounds"), Demo.w0, []. reflexivity.
  - discriminate Hexit.
Qed.

(** C4 as stated fails: a count of 0 ends in [ZeroDivisionError] and a
    count of -1 ends in no error at all. *)
Lemma nonpositive_repeat_raises_no_invalid_argument :
  fst (fst (time_hasher (P := Demo.platform) "noop" Demo.noop 0 Demo.w0))
  = Raise (ZeroDivisionError "float division by zero")
  /\ fst (fst (time_hasher (P := Demo.platform) "noop" Demo.noop (-1) Demo.w0)) = Ok tt
  /\ ~ rejects_repetitions (P := Demo.platform) "noop" Demo.noop 0 Demo.w0
  /\ ~ rejects_repetitions (P := Demo.platform) "noop" Demo.noop (-1) Demo.w0.
Proof.
  assert (H0 : time_hasher (P := Demo.platform) "noop" Demo.noop 0 Demo.w0
               = (Raise (ZeroDivisionError "float division by zero"),
                  tick (tick Demo.w0),
                  [EvClock (Demo.reading 0); EvClock (Demo.reading 1)]))
    by (vm_compute; reflexivity).
  assert (H1 : time_hasher (P := Demo.platform) "noop" Demo.noop (-1) Demo.w0
               = (Ok tt, tick (tick Demo.w0),
                  [EvClock (Demo.reading 0); EvClock (Demo.reading 1);
                   EvPrint "noop         -250.00 ms per hash (over -1 runs)"]))
    by (vm_compute; reflexivity).
  split; [| split; [| split]].
  - rewrite H0. reflexivity.
  - rewrite H1. reflexivity.
  - intros (w' & l & E & _). rewrite H0 in E. discriminate E.
  - intros (w' & l & E & _). rewrite H1 in E. discriminate E.
Qed.

(** C5 as stated fails: when the stub fails on its third call of five, the
    timer ends in the stub's own exception, not in [OperationFailed 3]. *)
Lemma failure_is_not_tagged :
  time_hasher (P := Demo.platform) "stub" (Demo.failing_stub 3) 5 Demo.w0
  = (Raise (OtherError "RuntimeError" "boom"), mkWorld 1 0 3%nat,
     [EvClock (Demo.reading 0); EvInvoke []; EvInvoke []; EvInvoke []])
  /\ ~ tags_failure (P := Demo.platform) "stub" (Demo.failing_stub 3) 5 3 Demo.w0.
Proof.
  assert (Hrun : time_hasher (P := Demo.platform) "stub" (Demo.failing_stub 3) 5 Demo.w0
                 = (Raise (OtherError "RuntimeError" "boom"), mkWorld 1 0 3%nat,
                    [EvClock (Demo.reading 0); EvInvoke []; EvInvoke []; EvInvoke []]))
    by (vm_compute; reflexivity).
  split; [exact Hrun |].
  intros (w' & l & E & _). rewrite Hrun in E. discriminate E.
Qed.

(** * The script at work *)

(** The module constants with a scrypt cost parameter that the primitive
    rejects. *)
Definition scrypt_n_one_constants : Configuration := {|
  PASSWORD := PASSWORD module_constants;
  REPEAT := REPEAT module_constants;
  BCRYPT_COST := BCRYPT_COST module_constants;
  SCRYPT_N := 1;
  SCRYPT_R := SCRYPT_R module_constants;
  SCRYPT_P := SCRYPT_P module_constants;
  ARGON2_TIME_COST := ARGON2_TIME_COST module_constants;
  ARGON2_MEMORY_COST := ARGON2_MEMORY_COST module_constants;
  ARGON2_PARALLELISM := ARGON2_PARALLELISM module_constants
|}.

(** The module constants with no repetition. *)
Definition zero_repeat_constants : Configuration := {|
  PASSWORD := PASSWORD module_constants;
  REPEAT := 0;
  BCRYPT_COST := BCRYPT_COST module_constants;
  SCRYPT_N := SCRYPT_N module_constants;
  SCRYPT_R := SCRYPT_R module_constants;
  SCRYPT_P := SCRYPT_P module_constants;
  ARGON2_TIME_COST := ARGON2_TIME_COST module_constants;
  ARGON2_MEMORY_COST := ARGON2_MEMORY_COST module_constants;
  ARGON2_PARALLELISM := ARGON2_PARALLELISM module_constants
|}.

(** X3 at work: a scrypt callable with [n = 1], timed a hundred times. *)
Lemma closure_failure_witness :
  exists l,
    time_hasher (P := Demo.platform) "scrypt"
      (do_hash (ScryptHasher (PASSWORD module_constants)
                  (entropy_bytes (P := Demo.platform) 0 16) 1 8 1)) 100 Demo.w0
    = (Raise (ValueError "Invalid parameter combination for n, r, p, maxmem."),
       tick Demo.w0, l)
    /\ invocations l = 1%nat
    /\ List.length (filter is_clock l) = 1%nat
    /\ printed l = [].
Proof.
  apply closure_failure_is_immediate; [vm_compute; reflexivity | lia].
Defined.

(** X5 at work: the script with its own constants; the readings of the
    demonstration clock are 0, 0.25, 0.5, 1, 2, 4, 8 and 16 seconds. *)
Lemma main_reports_witness :
  exists w' l,
    main (P := Demo.platform) module_constants Demo.w0 = (Ok tt, w', l)
    /\ printed l
       = banner module_constants
         ++ [heading;
             "SHA-256         2.50 ms per hash (over 100 runs)"%string;
             "bcrypt          5.00 ms per hash (over 100 runs)"%string;
             "scrypt         20.00 ms per hash (over 100 runs)"%string;
             "Argon2id       80.00 ms per hash (over 100 runs)"%string]
    /\ invocations l = 400%nat
    /\ clock_reads w' = 8%nat
    /\ entropy_used w' = 48%nat
    /\ user w' = 0%nat.
Proof.
  destruct (main_reports_in_order (P := Demo.platform) module_constants Demo.w0 _ _ _
              ltac:(cbn; lia) ltac:(cbn; lia) ltac:(vm_compute; reflexivity)
              ltac:(vm_compute; reflexivity) ltac:(vm_compute; reflexivity)
              ltac:(vm_compute; reflexivity))
    as (w' & l & Hrun & Hprinted & Hcalls & Hclock & Hused & Huser).
  exists w', l. split; [exact Hrun |]. split; [| repeat split; assumption].
  rewrite Hprinted. vm_compute. reflexivity.
Defined.

(** X6 at work: scrypt rejects [n = 1], so the report ends after the
    bcrypt line. *)
Lemma main_stops_witness :
  fst (fst (main (P := Demo.platform) scrypt_n_one_constants Demo.w0))
  = Raise (ValueError "Invalid parameter combination for n, r, p, maxmem.")
  /\ printed (snd (main (P := Demo.platform) scrypt_n_one_constants Demo.w0))
     = banner scrypt_n_one_constants
       ++ [heading;
           "SHA-256         2.50 ms per hash (over 100 runs)"%string;
           "bcrypt          5.00 ms per hash (over 100 runs)"%string].
Proof.
  pose proof (main_stops_at_first_failure (P := Demo.platform) scrypt_n_one_constants
                Demo.w0 ltac:(cbn; lia) ltac:(cbn; lia) ltac:(vm_compute; reflexivity))
    as H.
  cbv zeta in H.
  destruct (primitive_output (main_bcrypt_hasher scrypt_n_one_constants Demo.w0))
    as [ob|e] eqn:Eb; [| vm_compute in Eb; discriminate].
  destruct (primitive_output (main_scrypt_hasher scrypt_n_one_constants Demo.w0))
    as [os|e] eqn:Es; [vm_compute in Es; discriminate |].
  vm_compute in Es. injection Es as <-.
  destruct H as [Hend Hprinted]. split; [exact Hend |].
  rewrite Hprinted. vm_compute. reflexivity.
Defined.

(** X7 at work: the script with [REPEAT = 0]. *)
Lemma main_zero_repeat_witness :
  main (P := Demo.platform) zero_repeat_constants Demo.w0
  = (Raise (ZeroDivisionError "float division by zero"),
     tick (tick (consume 48 Demo.w0)),
     map EvPrint (banner zero_repeat_constants)
     ++ map EvUrandom (salts_drawn Demo.w0)
     ++ [EvPrint heading; EvClock (Demo.reading 0); EvClock (Demo.reading 1)]).
Proof.
  exact (main_zero_repeat (P := Demo.platform) zero_repeat_constants Demo.w0
           ltac:(cbn; lia) eq_refl).
Defined.

(** X9 at work: the script with its own constants draws three salts and
    computes four hundred hashes; the first hash of each algorithm is
    shown. *)
Lemma main_draws_three_salts_witness :
  let l := snd (main (P := Demo.platform) module_constants Demo.w0) in
  let d0 := entropy_bytes (P := Demo.platform) 0 16 in
  let d1 := entropy_bytes (P := Demo.platform) 16 16 in
  let d2 := entropy_bytes (P := Demo.platform) 32 16 in
  random_draws l = [d0; d1; d2]
  /\ Forall (fun hashed => snd hashed = main_salt module_constants Demo.w0 (fst hashed))
       (hashed_salts l)
  /\ List.length (hashed_salts l) = 400%nat
  /\ nth_error (hashed_salts l) 0 = Some (SHA256, [])
  /\ nth_error (hashed_salts l) 100
     = Some (Bcrypt,
             salt_of_randomness (BcryptFactory (PASSWORD module_constants) 12) d0)
  /\ nth_error (hashed_salts l) 200 = Some (Scrypt, d1)
  /\ nth_error (hashed_salts l) 300 = Some (Argon2id, d2).
Proof.
  cbv zeta.
  destruct (main_draws_three_salts (P := Demo.platform) module_constants Demo.w0
              ltac:(cbn; lia)) as (Hdraws & _ & _ & Hsalts).
  split; [exact Hdraws |]. split; [exact Hsalts |].
  repeat split; vm_compute; reflexivity.
Defined.
